(** * The pipeline driver [go] of [src/main.py]

    A shallow embedding of the orchestration script: the configuration is a
    record, the interpreter state (process environment, filesystem, working
    directory) is threaded explicitly, exceptions are a result type and every
    observable action of the driver is recorded in an event list. *)

From Stdlib Require Import Ascii String ZArith.
From stdpp Require Import base option list gmap strings fin_maps pretty.

Open Scope Z_scope.

(** ** Python library functions used by the driver *)

(** [str.split(sep)] for a one-character separator. *)
Fixpoint split (sep : ascii) (s : string) : list string :=
  match s with
  | EmptyString => [EmptyString]
  | String c s' =>
      if Ascii.eqb c sep then EmptyString :: split sep s'
      else match split sep s' with
           | [] => [String c EmptyString]
           | h :: t => String c h :: t
           end
  end.

(** [str.startswith("/")] and [str.endswith("/")]. *)
Definition startswith_sep (s : string) : bool :=
  match s with
  | String c _ => Ascii.eqb c "/"
  | EmptyString => false
  end.

Fixpoint endswith_sep (s : string) : bool :=
  match s with
  | EmptyString => false
  | String c EmptyString => Ascii.eqb c "/"
  | String _ s' => endswith_sep s'
  end.

(** One turn of the loop of [posixpath.join]. *)
Definition join_component (path b : string) : string :=
  if startswith_sep b then b
  else if (String.eqb path "" || endswith_sep path)%bool then path +:+ b
  else path +:+ "/" +:+ b.

Definition os_path_join (a : string) (p : list string) : string :=
  fold_left join_component p a.

(** [posixpath.normpath]; [new_comps] is kept with its last element first. *)
Definition normpath_push (initial_slashes : nat) (new_comps : list string)
    (comp : string) : list string :=
  if (String.eqb comp "" || String.eqb comp ".")%bool then new_comps
  else if (negb (String.eqb comp "..")
           || (Nat.eqb initial_slashes 0 && bool_decide (new_comps = []))
           || match new_comps with
              | top :: _ => String.eqb top ".."
              | [] => false
              end)%bool
       then comp :: new_comps
       else match new_comps with
            | _ :: below => below
            | [] => []
            end.

Definition normpath (path : string) : string :=
  if String.eqb path "" then "."
  else
    let initial_slashes :=
      if startswith_sep path then
        if (String.prefix "//" path && negb (String.prefix "///" path))%bool
        then 2%nat else 1%nat
      else 0%nat in
    let comps := split "/" path in
    let new_comps := fold_left (normpath_push initial_slashes) comps [] in
    let joined := String.concat "/" (rev new_comps) in
    let path' :=
      match initial_slashes with
      | 0%nat => joined
      | 1%nat => "/" +:+ joined
      | _ => "//" +:+ joined
      end in
    if String.eqb path' "" then "." else path'.

(** Substring test, Python's [needle in hay] on strings. *)
Fixpoint contains (needle hay : string) : bool :=
  match hay with
  | EmptyString => String.prefix needle EmptyString
  | String _ hay' => (String.prefix needle hay || contains needle hay')%bool
  end.

(** Does character [c] occur in [s]? *)
Fixpoint has_char (c : ascii) (s : string) : bool :=
  match s with
  | EmptyString => false
  | String a s' => (Ascii.eqb a c || has_char c s')%bool
  end.

(** Does [s] hold a whitespace character? *)
Fixpoint has_whitespace (s : string) : bool :=
  match s with
  | EmptyString => false
  | String a s' => (Ascii.is_space a || has_whitespace s')%bool
  end.

(** ** Data model *)

(** Scalar configuration values. The driver only passes them on, so a float
    is kept as its literal. *)
Inductive Scalar : Type :=
  | VStr (s : string)
  | VInt (z : Z)
  | VFloat (literal : string)
  | VBool (b : bool)
  | VNone.

Global Instance Scalar_eq_dec : EqDecision Scalar.
Proof. solve_decision. Defined.

(** [main.execute_steps] is a list of names or one comma-separated string. *)
Inductive StepsField : Type :=
  | StepsList (l : list string)
  | StepsStr (s : string).

Record MainCfg := {
  project_name : string;
  experiment_name : string;
  execute_steps : StepsField;
  random_state : Scalar }.

Record DataCfg := {
  sample : string;
  test_size : Scalar;
  val_size : Scalar;
  stratify : Scalar }.

Record EtlCfg := {
  min_price : Scalar;
  max_price : Scalar }.

Record DataCheckCfg := {
  kl_threshold : Scalar }.

(** The [pipeline] section: the export artifact name and the remaining
    (hyperparameter) entries, kept as written in the configuration. *)
Record PipelineCfg := {
  export_artifact : string;
  pipeline_entries : list (string * Scalar) }.

Record DictConfig := {
  main : MainCfg;
  data : DataCfg;
  etl : EtlCfg;
  data_check : DataCheckCfg;
  pipeline : PipelineCfg }.

(** A raised Python exception: whether its class derives from [Exception]
    (and not only from [BaseException]) and its [str()]. *)
Record PyExn := {
  exn_is_Exception : bool;
  exn_str : string }.

Inductive Node : Type :=
  | File (content : string)
  | Dir.

(** Interpreter state the driver reads or writes. *)
Record State := {
  environ : gmap string string;
  fs : gmap string Node;
  cwd : string }.

Definition set_environ (k v : string) (st : State) : State :=
  {| environ := <[k := v]> (environ st); fs := fs st; cwd := cwd st |}.

Definition set_fs (f : gmap string Node) (st : State) : State :=
  {| environ := environ st; fs := f; cwd := cwd st |}.

(** What [mlflow.run] is called with. *)
Record Invocation := {
  uri : string;
  entry_point : string;
  parameters : gmap string Scalar }.

Inductive Event : Type :=
  | EvSetenv (k v : string)
  | EvMkdtemp (d : string)
  | EvWrite (path content : string)
  | EvRun (inv : Invocation) (seen : State) (raised : option PyExn)
  | EvLogError (msg : string)
  | EvCleanup (d : string).

Global Instance PyExn_eq_dec : EqDecision PyExn.
Proof. solve_decision. Defined.

Global Instance Node_eq_dec : EqDecision Node.
Proof. solve_decision. Defined.

Global Instance State_eq_dec : EqDecision State.
Proof. solve_decision. Defined.

Global Instance Invocation_eq_dec : EqDecision Invocation.
Proof. solve_decision. Defined.

Global Instance Event_eq_dec : EqDecision Event.
Proof. solve_decision. Defined.

Inductive Result (A : Type) : Type :=
  | Ok (a : A)
  | Raise (e : PyExn).
Arguments Ok {A} a.
Arguments Raise {A} e.

(** ** The monad of driver code: state, exceptions and an event log *)

Definition Py (A : Type) : Type := State → Result A * State * list Event.

Definition py_ret {A} (a : A) : Py A := λ st, (Ok a, st, []).

Definition py_bind {A B} (f : A → Py B) (m : Py A) : Py B := λ st,
  match m st with
  | (Ok a, st1, ev1) =>
      match f a st1 with
      | (r, st2, ev2) => (r, st2, ev1 ++ ev2)
      end
  | (Raise e, st1, ev1) => (Raise e, st1, ev1)
  end.

Global Instance Py_ret : MRet Py := @py_ret.
Global Instance Py_bind : MBind Py := @py_bind.

Definition raise {A} (e : PyExn) : Py A := λ st, (Raise e, st, []).

Definition emit (ev : Event) : Py unit := λ st, (Ok tt, st, [ev]).

(** [try: body  except Exception as e: handler e]. *)
Definition try_except {A} (body : Py A) (handler : PyExn → Py A) : Py A := λ st,
  match body st with
  | (Ok a, st1, ev1) => (Ok a, st1, ev1)
  | (Raise e, st1, ev1) =>
      if exn_is_Exception e then
        match handler e st1 with
        | (r, st2, ev2) => (r, st2, ev1 ++ ev2)
        end
      else (Raise e, st1, ev1)
  end.

(** [if cond: body]. *)
Definition when (cond : bool) (body : Py unit) : Py unit :=
  if cond then body else py_ret tt.

(** ** Primitive actions *)

(** The [ValueError]s of [os.putenv]. *)
Definition embedded_null_byte : PyExn :=
  {| exn_is_Exception := true; exn_str := "embedded null byte" |}.

Definition illegal_variable_name : PyExn :=
  {| exn_is_Exception := true;
     exn_str := "illegal environment variable name" |}.

(** [os.environ[k] = v]: a NUL byte in the name or in the value is refused
    when the two are converted, then an empty name or one holding [=]; only
    then is the environment changed. *)
Definition os_environ_set (k v : string) : Py unit := λ st,
  if (has_char "000" k || has_char "000" v)%bool
  then (Raise embedded_null_byte, st, [])
  else if (String.eqb k "" || has_char "=" k)%bool
  then (Raise illegal_variable_name, st, [])
  else (Ok tt, set_environ k v st, [EvSetenv k v]).

(** [logger.error(msg)]. *)
Definition logger_error (msg : string) : Py unit := emit (EvLogError msg).

(** [os.path.abspath]. *)
Definition os_path_abspath (path : string) : Py string := λ st,
  let path' := if startswith_sep path then path
               else os_path_join (cwd st) [path] in
  (Ok (normpath path'), st, []).

(** [with open(path, "w+") as fp: fp.write(content)]. Whether the file can
    be opened is for the operating system to say: [open_error path st] is
    the text of the [OSError] that [open] raises in state [st], if it raises
    (a directory at [path], a missing permission, ...). Otherwise the file is
    created or truncated and receives [content]. *)
Definition write_file (open_error : string → State → option string)
    (path content : string) : Py unit := λ st,
  match open_error path st with
  | Some text =>
      (Raise {| exn_is_Exception := true; exn_str := text |}, st, [])
  | None => (Ok tt, set_fs (<[path := File content]> (fs st)) st,
             [EvWrite path content])
  end.

(** Is [p] the directory [d] or a path below it? *)
Definition is_under (d p : string) : bool :=
  (String.eqb p d || String.prefix (d +:+ "/") p)%bool.

(** [shutil.rmtree(d)], as run by [TemporaryDirectory.cleanup]. *)
Definition rmtree (d : string) (f : gmap string Node) : gmap string Node :=
  filter (λ kv, is_under d kv.1 = false) f.

Section Driver.

(** The external collaborators: the project runner behind [mlflow.run]
    (it sees the driver's state, may change the filesystem, and either
    returns or raises; the projects run as child processes, so the driver's
    own environment and working directory are out of their reach), the name
    [tempfile] picks for the scratch directory, [OmegaConf.to_yaml], and
    [hydra.utils.get_original_cwd()]; and, first, the operating system's
    answer to [open] (see [write_file]). *)
Variable open_error : string → State → option string.
Variable runner : Invocation → State → option PyExn * gmap string Node.
Variable mkdtemp_name : State → string.
Variable to_yaml : PipelineCfg → string.
Variable root_path : string.

(** [mlflow.run(uri, entry_point, parameters=...)]. *)
Definition mlflow_run (u e : string) (params : gmap string Scalar) : Py unit :=
  λ st,
  let inv := {| uri := u; entry_point := e; parameters := params |} in
  match runner inv st with
  | (None, f) => (Ok tt, set_fs f st, [EvRun inv st None])
  | (Some ex, f) => (Raise ex, set_fs f st, [EvRun inv st (Some ex)])
  end.

(** [with tempfile.TemporaryDirectory() as tmp_dir: body]. *)
Definition with_TemporaryDirectory {A} (body : string → Py A) : Py A := λ st,
  let tmp_dir := mkdtemp_name st in
  match body tmp_dir (set_fs (<[tmp_dir := Dir]> (fs st)) st) with
  | (r, st1, ev) =>
      (r, set_fs (rmtree tmp_dir (fs st1)) st1,
       EvMkdtemp tmp_dir :: ev ++ [EvCleanup tmp_dir])
  end.

(** The handler shared by the six [try] blocks (lines 42-44 and its
    copies): log, then re-raise the exception being handled. *)
Definition log_and_reraise (e : PyExn) : Py unit :=
  logger_error ("MLflow run failed: " +:+ exn_str e) ;; raise e.

(** Lines 22-25. *)
Definition resolve_steps (config : DictConfig) : list string :=
  match execute_steps (main config) with
  | StepsStr s => split "," s
  | StepsList l => l
  end.

(** Lines 27-136: the body of the [with] block. *)
Definition go_body (config : DictConfig) (steps_to_execute : list string)
    (tmp_dir : string) : Py unit :=
  when (bool_decide ("data_get" ∈ steps_to_execute))
    (try_except
       (mlflow_run (os_path_join root_path ["components"; "data_get"]) "main"
          {[ "input_file" := VStr (os_path_join root_path [sample (data config)]);
             "artifact_name" := VStr "raw_data.csv";
             "artifact_type" := VStr "raw_data";
             "artifact_description" := VStr "Input raw dataset from csv file" ]})
       log_and_reraise) ;;
  when (bool_decide ("data_clean" ∈ steps_to_execute))
    (try_except
       (mlflow_run (os_path_join root_path ["components"; "data_clean"]) "main"
          {[ "input_artifact" := VStr "nyc_airbnb/raw_data.csv:latest";
             "output_artifact_name" := VStr "clean_data.csv";
             "output_artifact_type" := VStr "clean_data";
             "output_artifact_description" := VStr "Clean dataset with outliers removed";
             "min_price" := min_price (etl config);
             "max_price" := max_price (etl config) ]})
       log_and_reraise) ;;
  when (bool_decide ("data_check" ∈ steps_to_execute))
    (try_except
       (mlflow_run (os_path_join root_path ["components"; "data_check"]) "main"
          {[ "csv" := VStr "nyc_airbnb/clean_data.csv:latest";
             "ref" := VStr "nyc_airbnb/clean_data.csv:reference";
             "kl_threshold" := kl_threshold (data_check config);
             "min_price" := min_price (etl config);
             "max_price" := max_price (etl config) ]})
       log_and_reraise) ;;
  when (bool_decide ("data_split" ∈ steps_to_execute))
    (try_except
       (mlflow_run (os_path_join root_path ["components"; "data_split"]) "main"
          {[ "input_data" := VStr "nyc_airbnb/clean_data.csv:latest";
             "test_size" := test_size (data config);
             "random_state" := random_state (main config);
             "stratify" := stratify (data config) ]})
       log_and_reraise) ;;
  when (bool_decide ("train_random_forest" ∈ steps_to_execute))
    (try_except
       (rf_config ← os_path_abspath "rf_config.json";
        write_file open_error rf_config (to_yaml (pipeline config)) ;;
        mlflow_run (os_path_join root_path ["components"; "train_random_forest"]) "main"
          {[ "trainval_artifact" := VStr "nyc_airbnb/trainval_data.csv:latest";
             "val_size" := val_size (data config);
             "random_state" := random_state (main config);
             "stratify" := stratify (data config);
             "rf_config" := VStr rf_config;
             "output_artifact" := VStr (export_artifact (pipeline config)) ]})
       log_and_reraise) ;;
  when (bool_decide ("test_model" ∈ steps_to_execute))
    (try_except
       (mlflow_run (os_path_join root_path ["components"; "test_model"]) "main"
          {[ "mlflow_model" :=
               VStr ("nyc_airbnb/" +:+ export_artifact (pipeline config) +:+ ":prod");
             "test_dataset" := VStr "nyc_airbnb/test_data.csv:latest" ]})
       log_and_reraise).

(** Lines 13-136. *)
Definition go (config : DictConfig) : Py unit :=
  os_environ_set "WANDB_PROJECT" (project_name (main config)) ;;
  os_environ_set "WANDB_RUN_GROUP" (experiment_name (main config)) ;;
  with_TemporaryDirectory (go_body config (resolve_steps config)).

End Driver.

(** ** The six guarded blocks, seen uniformly *)

Inductive Step : Type :=
  | Step_data_get
  | Step_data_clean
  | Step_data_check
  | Step_data_split
  | Step_train_random_forest
  | Step_test_model.

Global Instance Step_eq_dec : EqDecision Step.
Proof. solve_decision. Defined.

Definition step_name (s : Step) : string :=
  match s with
  | Step_data_get => "data_get"
  | Step_data_clean => "data_clean"
  | Step_data_check => "data_check"
  | Step_data_split => "data_split"
  | Step_train_random_forest => "train_random_forest"
  | Step_test_model => "test_model"
  end.

(** The order in which [go] tests the step names. *)
Definition fixed_order : list Step :=
  [Step_data_get; Step_data_clean; Step_data_check; Step_data_split;
   Step_train_random_forest; Step_test_model].

(** The [parameters=] dictionary of each block; [rf_config] is the local
    variable of that name, used by the training block only. *)
Definition step_parameters (root_path : string) (config : DictConfig)
    (rf_config : string) (s : Step) : gmap string Scalar :=
  match s with
  | Step_data_get =>
      {[ "input_file" := VStr (os_path_join root_path [sample (data config)]);
         "artifact_name" := VStr "raw_data.csv";
         "artifact_type" := VStr "raw_data";
         "artifact_description" := VStr "Input raw dataset from csv file" ]}
  | Step_data_clean =>
      {[ "input_artifact" := VStr "nyc_airbnb/raw_data.csv:latest";
         "output_artifact_name" := VStr "clean_data.csv";
         "output_artifact_type" := VStr "clean_data";
         "output_artifact_description" := VStr "Clean dataset with outliers removed";
         "min_price" := min_price (etl config);
         "max_price" := max_price (etl config) ]}
  | Step_data_check =>
      {[ "csv" := VStr "nyc_airbnb/clean_data.csv:latest";
         "ref" := VStr "nyc_airbnb/clean_data.csv:reference";
         "kl_threshold" := kl_threshold (data_check config);
         "min_price" := min_price (etl config);
         "max_price" := max_price (etl config) ]}
  | Step_data_split =>
      {[ "input_data" := VStr "nyc_airbnb/clean_data.csv:latest";
         "test_size" := test_size (data config);
         "random_state" := random_state (main config);
         "stratify" := stratify (data config) ]}
  | Step_train_random_forest =>
      {[ "trainval_artifact" := VStr "nyc_airbnb/trainval_data.csv:latest";
         "val_size" := val_size (data config);
         "random_state" := random_state (main config);
         "stratify" := stratify (data config);
         "rf_config" := VStr rf_config;
         "output_artifact" := VStr (export_artifact (pipeline config)) ]}
  | Step_test_model =>
      {[ "mlflow_model" :=
           VStr ("nyc_airbnb/" +:+ export_artifact (pipeline config) +:+ ":prod");
         "test_dataset" := VStr "nyc_airbnb/test_data.csv:latest" ]}
  end.

(** Where [os.path.abspath("rf_config.json")] points in state [st]. *)
Definition rf_config_path (st : State) : string :=
  normpath (os_path_join (cwd st) ["rf_config.json"]).

(** The events of an event list that are delegations, and their targets. *)
Definition run_invocations (ev : list Event) : list Invocation :=
  omap (λ e, match e with EvRun inv _ _ => Some inv | _ => None end) ev.

Definition run_uris (ev : list Event) : list string :=
  uri <$> run_invocations ev.

(** The files the driver wrote, as (path, content). *)
Definition file_writes (ev : list Event) : list (string * string) :=
  omap (λ e, match e with EvWrite p c => Some (p, c) | _ => None end) ev.

(** The messages passed to [logger.error]. *)
Definition log_messages (ev : list Event) : list string :=
  omap (λ e, match e with EvLogError msg => Some msg | _ => None end) ev.

(** Can both names of [config.main] be put in the environment? *)
Definition names_exportable (config : DictConfig) : bool :=
  (negb (has_char "000" (project_name (main config)))
   && negb (has_char "000" (experiment_name (main config))))%bool.

(** The state in which the [with] block is entered: both environment values
    set, the scratch directory (named [d]) created. *)
Definition env_ready (config : DictConfig) (st : State) : State :=
  set_environ "WANDB_RUN_GROUP" (experiment_name (main config))
    (set_environ "WANDB_PROJECT" (project_name (main config)) st).

Definition body_entry (config : DictConfig) (d : string) (st : State) : State :=
  set_fs (<[d := Dir]> (fs (env_ready config st))) (env_ready config st).

Definition is_setenv (e : Event) : bool :=
  match e with EvSetenv _ _ => true | _ => false end.

Definition raised_run (e : Event) : bool :=
  match e with EvRun _ _ (Some _) => true | _ => false end.

(** The events the shared handler adds for an exception [e] leaving a
    [try] body. *)
Definition handler_events (e : PyExn) : list Event :=
  if exn_is_Exception e then [EvLogError ("MLflow run failed: " +:+ exn_str e)]
  else [].

(** Replace [main.execute_steps]. *)
Definition with_execute_steps (config : DictConfig) (f : StepsField) : DictConfig :=
  {| main := {| project_name := project_name (main config);
                experiment_name := experiment_name (main config);
                execute_steps := f;
                random_state := random_state (main config) |};
     data := data config; etl := etl config;
     data_check := data_check config; pipeline := pipeline config |}.

Section Blocks.

Variable open_error : string → State → option string.
Variable runner : Invocation → State → option PyExn * gmap string Node.
Variable mkdtemp_name : State → string.
Variable to_yaml : PipelineCfg → string.
Variable root_path : string.
Variable config : DictConfig.

Definition component_dir (s : Step) : string :=
  os_path_join root_path ["components"; step_name s].

Definition step_invocation (rf_config : string) (s : Step) : Invocation :=
  {| uri := component_dir s; entry_point := "main";
     parameters := step_parameters root_path config rf_config s |}.

(** The body of the [try] of each block. *)
Definition attempt (s : Step) : Py unit :=
  match s with
  | Step_train_random_forest =>
      rf_config ← os_path_abspath "rf_config.json";
      write_file open_error rf_config (to_yaml (pipeline config)) ;;
      mlflow_run runner (component_dir s) "main"
        (step_parameters root_path config rf_config s)
  | _ =>
      mlflow_run runner (component_dir s) "main"
        (step_parameters root_path config "" s)
  end.

Definition block (steps_to_execute : list string) (s : Step) : Py unit :=
  when (bool_decide (step_name s ∈ steps_to_execute))
    (try_except (attempt s) (log_and_reraise)).

Fixpoint run_blocks (steps_to_execute : list string) (l : list Step) : Py unit :=
  match l with
  | [] => py_ret tt
  | [s] => block steps_to_execute s
  | s :: rest => block steps_to_execute s ;; run_blocks steps_to_execute rest
  end.

(** What happens before the delegation of a block: nothing, except for
    the training block, which writes the configuration file. *)
Definition prepare (s : Step) (st : State) : Result State * list Event :=
  match s with
  | Step_train_random_forest =>
      match write_file open_error (rf_config_path st)
              (to_yaml (pipeline config)) st with
      | (Ok _, st1, ev) => (Ok st1, ev)
      | (Raise e, _, ev) => (Raise e, ev)
      end
  | _ => (Ok st, [])
  end.

(** The outcome of one block, in closed form. *)
Definition block_outcome (steps_to_execute : list string) (s : Step)
    (st : State) : Result unit * State * list Event :=
  if bool_decide (step_name s ∈ steps_to_execute) then
    match prepare s st with
    | (Raise e, ev) => (Raise e, st, ev ++ handler_events e)
    | (Ok st1, ev) =>
        let inv := step_invocation (rf_config_path st) s in
        match runner inv st1 with
        | (None, f) => (Ok tt, set_fs f st1, ev ++ [EvRun inv st1 None])
        | (Some e, f) =>
            (Raise e, set_fs f st1,
             ev ++ EvRun inv st1 (Some e) :: handler_events e)
        end
    end
  else (Ok tt, st, []).

Fixpoint blocks_outcome (steps_to_execute : list string) (l : list Step)
    (st : State) : Result unit * State * list Event :=
  match l with
  | [] => (Ok tt, st, [])
  | s :: rest =>
      match block_outcome steps_to_execute s st with
      | (Ok _, st1, ev1) =>
          match blocks_outcome steps_to_execute rest st1 with
          | (r, st2, ev2) => (r, st2, ev1 ++ ev2)
          end
      | (Raise e, st1, ev1) => (Raise e, st1, ev1)
      end
  end.

End Blocks.

(** ** The shape of the event list of the six blocks *)

Section TraceShape.

Variable to_yaml : PipelineCfg → string.
Variable root_path : string.
Variable config : DictConfig.
Variable steps : list string.
Variable st0 : State.

(** What the driver does before delegating step [s]. *)
Definition prep_events (s : Step) : list Event :=
  match s with
  | Step_train_random_forest =>
      [EvWrite (rf_config_path st0) (to_yaml (pipeline config))]
  | _ => []
  end.

(** The state a delegation of step [s] may see: the environment and working
    directory of [st0] and, for the training step, the file just written. *)
Definition prepared (s : Step) (seen : State) : Prop :=
  environ seen = environ st0 ∧ cwd seen = cwd st0 ∧
  (s = Step_train_random_forest →
   fs seen !! rf_config_path st0 = Some (File (to_yaml (pipeline config)))).

Local Abbreviation inv_of := (step_invocation root_path config (rf_config_path st0)).

Inductive body_trace : list Step → Result unit → list Event → Prop :=
  | bt_done : body_trace [] (Ok tt) []
  | bt_skip s rest r ev :
      step_name s ∉ steps →
      body_trace rest r ev →
      body_trace (s :: rest) r ev
  | bt_run s rest r ev seen :
      step_name s ∈ steps →
      prepared s seen →
      body_trace rest r ev →
      body_trace (s :: rest) r (prep_events s ++ EvRun (inv_of s) seen None :: ev)
  | bt_raise s rest seen e :
      step_name s ∈ steps →
      prepared s seen →
      body_trace (s :: rest) (Raise e)
        (prep_events s ++ EvRun (inv_of s) seen (Some e) :: handler_events e)
  | bt_write_raise rest e :
      step_name Step_train_random_forest ∈ steps →
      exn_is_Exception e = true →
      body_trace (Step_train_random_forest :: rest) (Raise e) (handler_events e).

(** What an event of the six blocks can be: a delegation of a selected step
    with that step's parameters, the write of the training block, or the
    handler's log line. *)
Definition body_event (e : Event) : Prop :=
  match e with
  | EvRun inv seen _ =>
      ∃ s, step_name s ∈ steps ∧ inv = inv_of s ∧ prepared s seen
  | EvWrite p c =>
      step_name Step_train_random_forest ∈ steps ∧
      p = rf_config_path st0 ∧ c = to_yaml (pipeline config)
  | EvLogError msg => ∃ e, msg = "MLflow run failed: " +:+ exn_str e
  | _ => False
  end.

End TraceShape.

(** ** Sample inputs *)

Definition sample_config (steps : StepsField) : DictConfig :=
  {| main := {| project_name := "nyc_airbnb";
                experiment_name := "development";
                execute_steps := steps;
                random_state := VInt 42 |};
     data := {| sample := "sample1.csv";
                test_size := VFloat "0.2";
                val_size := VFloat "0.2";
                stratify := VStr "neighbourhood_group" |};
     etl := {| min_price := VInt 10; max_price := VInt 500 |};
     data_check := {| kl_threshold := VFloat "0.2" |};
     pipeline := {| export_artifact := "random_forest_export";
                    pipeline_entries :=
                      [("max_tfidf_features", VInt 5);
                       ("criterion", VStr "squared_error")] |} |}.

Definition sample_state : State :=
  {| environ := {[ "HOME" := "/home/user" ]};
     fs := {[ "/home/user/project" := Dir ]};
     cwd := "/home/user/project" |}.

Definition sample_mkdtemp (st : State) : string := "/tmp/tmpk3x9a1".

Definition render_scalar (v : Scalar) : string :=
  match v with
  | VStr s => s
  | VInt z => pretty z
  | VFloat l => l
  | VBool true => "true"
  | VBool false => "false"
  | VNone => "null"
  end.

Definition newline : string := String "010" EmptyString.

Definition sample_to_yaml (p : PipelineCfg) : string :=
  String.concat ""
    (("export_artifact: " +:+ export_artifact p +:+ newline)
     :: map (λ kv, kv.1 +:+ ": " +:+ render_scalar kv.2 +:+ newline)
          (pipeline_entries p)).

(** An operating system for which [open] fails on directories only. The
    path is quoted as Python does for a path free of quotes, backslashes and
    control characters. *)
Definition sample_open_error (path : string) (st : State) : option string :=
  match fs st !! path with
  | Some Dir => Some ("[Errno 21] Is a directory: '" +:+ path +:+ "'")
  | _ => None
  end.

(** A runner for which every project succeeds and leaves a marker file. *)
Definition runner_ok (inv : Invocation) (st : State)
    : option PyExn * gmap string Node :=
  (None, <[uri inv +:+ "/mlruns" := Dir]> (fs st)).

(** A runner that raises for the project at [target] and succeeds elsewhere. *)
Definition runner_raising_at (target : string) (e : PyExn)
    (inv : Invocation) (st : State) : option PyExn * gmap string Node :=
  if String.eqb (uri inv) target then (Some e, fs st) else runner_ok inv st.

(** A runner for which every project succeeds and touches no file. *)
Definition runner_quiet (inv : Invocation) (st : State)
    : option PyExn * gmap string Node :=
  (None, fs st).

Definition sample_error : PyExn :=
  {| exn_is_Exception := true; exn_str := "Non-zero exit code: 1" |}.

(** Decide the membership tests of a concrete selection. *)
Ltac eval_selection :=
  repeat match goal with
  | |- context [bool_decide (?x ∈ ?l)] =>
      let b := eval vm_compute in (bool_decide (x ∈ l)) in
      change (bool_decide (x ∈ l)) with b
  end.

(** ** Properties of the library functions *)

(** [split] always returns at least one fragment, so the first branch of
    its inner [match] is never taken. *)
Lemma split_nonempty sep s : split sep s ≠ [].
Proof.
  destruct s as [|c s]; simpl; [done|].
  destruct (Ascii.eqb c sep); [done|]. by destruct (split sep s).
Qed.

(** ** The driver in closed form *)

Section BlockFacts.

Variable open_error : string → State → option string.
Variable runner : Invocation → State → option PyExn * gmap string Node.
Variable mkdtemp_name : State → string.
Variable to_yaml : PipelineCfg → string.
Variable root_path : string.
Variable config : DictConfig.

Local Abbreviation block := (block open_error runner to_yaml root_path config).
Local Abbreviation run_blocks := (run_blocks open_error runner to_yaml root_path config).
Local Abbreviation block_outcome := (block_outcome open_error runner to_yaml root_path config).
Local Abbreviation blocks_outcome := (blocks_outcome open_error runner to_yaml root_path config).
Local Abbreviation go_body := (go_body open_error runner to_yaml root_path config).
Local Abbreviation go := (go open_error runner mkdtemp_name to_yaml root_path).

Lemma go_body_blocks steps tmp_dir :
  go_body steps tmp_dir = run_blocks steps fixed_order.
Proof. reflexivity. Qed.

Lemma block_eq steps s st : block steps s st = block_outcome steps s st.
Proof.
  unfold block, block_outcome, when.
  destruct (bool_decide (step_name s ∈ steps)); [|done].
  unfold try_except, handler_events.
  destruct s; cbn [attempt prepare app];
    unfold step_invocation, mlflow_run;
    try (destruct (runner _ st) as [[e|] f]; [|done];
         destruct (exn_is_Exception e); done).
  unfold mbind, Py_bind, py_bind, os_path_abspath, write_file, rf_config_path.
  cbn [startswith_sep Ascii.eqb Bool.eqb].
  destruct (open_error _ st) as [text|]; cbn [exn_is_Exception app]; [done|].
  destruct (runner _ _) as [[e|] f]; [|done].
  by destruct (exn_is_Exception e).
Qed.

Lemma run_blocks_eq steps l st : run_blocks steps l st = blocks_outcome steps l st.
Proof.
  revert st. induction l as [|s rest IH]; intros st; [done|].
  cbn [blocks_outcome]. rewrite <- block_eq.
  destruct rest as [|s' rest].
  - cbn [run_blocks blocks_outcome].
    destruct (block steps s st) as [[[[]|e] st1] ev1]; [|done].
    by rewrite app_nil_r.
  - change (run_blocks steps (s :: s' :: rest) st)
      with (py_bind (λ _, run_blocks steps (s' :: rest)) (block steps s) st).
    unfold py_bind. destruct (block steps s st) as [[[[]|e] st1] ev1]; [|done].
    by rewrite IH.
Qed.

(** The two assignments of lines 16-17 go through exactly when neither
    name holds a NUL byte. *)
Lemma os_environ_set_wandb k v st :
  k = "WANDB_PROJECT" ∨ k = "WANDB_RUN_GROUP" →
  os_environ_set k v st
  = if has_char "000" v then (Raise embedded_null_byte, st, [])
    else (Ok tt, set_environ k v st, [EvSetenv k v]).
Proof. by intros [-> | ->]. Qed.

(** [go] unfolded, when both names can be exported: two environment
    writes, the scratch directory, the six blocks, the cleanup. *)
Lemma go_eq st :
  names_exportable config = true →
  go config st =
    let st0 := set_environ "WANDB_RUN_GROUP" (experiment_name (main config))
                 (set_environ "WANDB_PROJECT" (project_name (main config)) st) in
    let d := mkdtemp_name st0 in
    match blocks_outcome (resolve_steps config) fixed_order
            (set_fs (<[d := Dir]> (fs st0)) st0) with
    | (r, st1, ev) =>
        (r, set_fs (rmtree d (fs st1)) st1,
         EvSetenv "WANDB_PROJECT" (project_name (main config))
         :: EvSetenv "WANDB_RUN_GROUP" (experiment_name (main config))
         :: EvMkdtemp d :: ev ++ [EvCleanup d])
    end.
Proof.
  unfold names_exportable. intros [Hp He]%andb_true_iff.
  apply negb_true_iff in Hp, He.
  unfold go, with_TemporaryDirectory, mbind, Py_bind, py_bind.
  rewrite os_environ_set_wandb by auto. rewrite Hp. cbv beta iota.
  rewrite os_environ_set_wandb by auto. rewrite He. cbv beta iota.
  rewrite go_body_blocks, run_blocks_eq.
  cbv zeta.
  by destruct (blocks_outcome _ _ _) as [[r st1] ev].
Qed.

(** [go] when a name holds a NUL byte: the assignment raises [ValueError]
    outside every [try]; the [with] block is not entered. *)
Lemma go_not_exportable st :
  names_exportable config = false →
  go config st
  = if has_char "000" (project_name (main config))
    then (Raise embedded_null_byte, st, [])
    else (Raise embedded_null_byte,
          set_environ "WANDB_PROJECT" (project_name (main config)) st,
          [EvSetenv "WANDB_PROJECT" (project_name (main config))]).
Proof.
  unfold names_exportable. intros Hx.
  unfold go, mbind, Py_bind, py_bind.
  rewrite os_environ_set_wandb by auto.
  destruct (has_char "000" (project_name (main config))); [done|].
  cbv beta iota. rewrite os_environ_set_wandb by auto.
  cbn [negb andb] in Hx. apply negb_false_iff in Hx. by rewrite Hx.
Qed.

End BlockFacts.

(** ** Targets of the delegations *)

Lemma step_name_inj s1 s2 : step_name s1 = step_name s2 → s1 = s2.
Proof. by destruct s1, s2. Qed.

Lemma step_name_not_abs s : startswith_sep (step_name s) = false.
Proof. by destruct s. Qed.

Lemma component_dir_app root_path :
  ∃ base, ∀ s, component_dir root_path s = base +:+ step_name s.
Proof.
  unfold component_dir, os_path_join. cbn [fold_left].
  set (c := join_component root_path "components").
  unfold join_component at 1.
  destruct (String.eqb c "" || endswith_sep c)%bool.
  - exists c. intros s. by rewrite step_name_not_abs.
  - exists (c +:+ "/"). intros s. rewrite step_name_not_abs.
    clear. induction c as [|a c IH]; [done|].
    unfold String.app in *. cbn [append]. by rewrite IH.
Qed.

Lemma component_dir_inj root_path s1 s2 :
  component_dir root_path s1 = component_dir root_path s2 → s1 = s2.
Proof.
  destruct (component_dir_app root_path) as [base Hb].
  rewrite !Hb. intros H. by apply step_name_inj, (inj (String.app base)).
Qed.

(** ** Soundness of the trace shape *)

Section Traces.

Variable to_yaml : PipelineCfg → string.
Variable root_path : string.
Variable config : DictConfig.
Variable steps : list string.
Variable st0 : State.

Local Abbreviation prep_events := (prep_events to_yaml config st0).
Local Abbreviation prepared := (prepared to_yaml config st0).
Local Abbreviation body_trace := (body_trace to_yaml root_path config steps st0).

Variable open_error : string → State → option string.
Variable runner : Invocation → State → option PyExn * gmap string Node.

Lemma prepare_ok s st st1 ev :
  environ st = environ st0 → cwd st = cwd st0 →
  prepare open_error to_yaml config s st = (Ok st1, ev) →
  ev = prep_events s ∧ prepared s st1.
Proof.
  intros He Hc. unfold prepared, prep_events, rf_config_path in *. rewrite <- Hc.
  destruct s; cbn [prepare]; try (intros [= <- <-]; by repeat split).
  unfold write_file, rf_config_path.
  destruct (open_error _ st) as [text|]; [discriminate|]. intros [= <- <-].
  repeat split; auto. intros _. apply lookup_insert_eq.
Qed.

Lemma prepare_raise s st e ev :
  prepare open_error to_yaml config s st = (Raise e, ev) →
  s = Step_train_random_forest ∧ ev = [] ∧ exn_is_Exception e = true.
Proof.
  destruct s; cbn [prepare]; try discriminate.
  unfold write_file. by destruct (open_error _ st) as [text|]; intros [= <- <-].
Qed.

Lemma blocks_outcome_trace l st r st' ev :
  environ st = environ st0 → cwd st = cwd st0 →
  blocks_outcome open_error runner to_yaml root_path config steps l st = (r, st', ev) →
  body_trace l r ev ∧ environ st' = environ st0 ∧ cwd st' = cwd st0.
Proof.
  revert st r st' ev. induction l as [|s rest IH]; intros st r st' ev He Hc.
  { intros [= <- <- <-]. split; [constructor|done]. }
  cbn [blocks_outcome]. unfold block_outcome.
  destruct (bool_decide_reflect (step_name s ∈ steps)) as [Hin|Hin].
  2:{ destruct (blocks_outcome _ _ _ _ _ _ _ _) as [[r2 st2] ev2] eqn:E.
      intros [= <- <- <-]. destruct (IH _ _ _ _ He Hc E) as (? & ? & ?).
      split; [by apply bt_skip|done]. }
  destruct (prepare _ _ _ _) as [[st1|e] pre] eqn:Ep.
  2:{ intros [= <- <- <-]. apply prepare_raise in Ep as (-> & -> & Hex).
      split; [by apply bt_write_raise|done]. }
  destruct (prepare_ok _ _ _ _ He Hc Ep) as [-> Hp].
  assert (rf_config_path st = rf_config_path st0) as ->
    by (unfold rf_config_path; by rewrite Hc).
  destruct (runner _ st1) as [[e|] f].
  { intros [= <- <- <-]. destruct Hp as (? & ? & ?).
    split; [by apply bt_raise|done]. }
  destruct (blocks_outcome _ _ _ _ _ _ _ _) as [[r2 st2] ev2] eqn:E.
  intros [= <- <- <-]. destruct Hp as (He1 & Hc1 & Hf).
  destruct (IH (set_fs f st1) _ _ _ He1 Hc1 E) as (? & ? & ?).
  split; [|done]. rewrite <- app_assoc. by apply bt_run.
Qed.

End Traces.

(** ** From the blocks to [go] *)

Section GoFacts.

Variable open_error : string → State → option string.
Variable runner : Invocation → State → option PyExn * gmap string Node.
Variable mkdtemp_name : State → string.
Variable to_yaml : PipelineCfg → string.
Variable root_path : string.

Local Abbreviation go := (go open_error runner mkdtemp_name to_yaml root_path).

Lemma go_trace config st r st' ev :
  names_exportable config = true →
  go config st = (r, st', ev) →
  let d := mkdtemp_name (env_ready config st) in
  ∃ body st1,
    ev = EvSetenv "WANDB_PROJECT" (project_name (main config))
         :: EvSetenv "WANDB_RUN_GROUP" (experiment_name (main config))
         :: EvMkdtemp d :: body ++ [EvCleanup d] ∧
    body_trace to_yaml root_path config (resolve_steps config)
      (body_entry config d st) fixed_order r body ∧
    blocks_outcome open_error runner to_yaml root_path config (resolve_steps config)
      fixed_order (body_entry config d st) = (r, st1, body) ∧
    st' = set_fs (rmtree d (fs st1)) st1 ∧
    environ st1 = environ (env_ready config st) ∧ cwd st1 = cwd st.
Proof.
  intros Hx. rewrite go_eq by done. cbv zeta. fold (env_ready config st).
  fold (body_entry config (mkdtemp_name (env_ready config st)) st).
  destruct (blocks_outcome _ _ _ _ _ _ _ _) as [[r1 st1] body] eqn:E.
  intros [= <- <- <-]. exists body, st1.
  eapply blocks_outcome_trace in E as (Ht & He & Hc); [|done..].
  by repeat split.
Qed.

(** A run that cannot export a name: it ends with the [ValueError] of the
    assignment, having at most set [WANDB_PROJECT]; nothing is delegated,
    written or logged, and no scratch directory is made. *)
Lemma go_prologue_raises config st :
  names_exportable config = false →
  ∃ st' ev,
    go config st = (Raise embedded_null_byte, st', ev) ∧
    (ev = [] ∨ ev = [EvSetenv "WANDB_PROJECT" (project_name (main config))]) ∧
    fs st' = fs st ∧ cwd st' = cwd st ∧
    (∀ k, k ≠ "WANDB_PROJECT" → environ st' !! k = environ st !! k).
Proof.
  intros Hx. rewrite go_not_exportable by done.
  destruct (has_char "000" (project_name (main config))).
  - exists st, []. by repeat split; auto.
  - eexists _, _. split; [done|]. split; [by right|].
    split; [done|]. split; [done|]. intros k Hk.
    unfold set_environ. cbn [environ]. by rewrite lookup_insert_ne.
Qed.

(** A run that did anything besides assigning to the environment, or that
    ended normally, could export both names. *)
Lemma go_event_exportable config st e :
  e ∈ snd (go config st) → is_setenv e = false →
  names_exportable config = true.
Proof.
  destruct (names_exportable config) eqn:Hx; [done|]. intros Hin He.
  destruct (go_prologue_raises config st Hx) as (st' & ev & E & [->| ->] & _);
    rewrite E in Hin; cbn [snd] in Hin.
  - by apply elem_of_nil in Hin.
  - apply list_elem_of_singleton in Hin as ->. discriminate.
Qed.

Lemma go_run_exportable config st inv seen out :
  EvRun inv seen out ∈ snd (go config st) → names_exportable config = true.
Proof. intros Hin. by apply (go_event_exportable _ _ _ Hin). Qed.

Lemma go_ok_exportable config st :
  fst (fst (go config st)) = Ok tt → names_exportable config = true.
Proof.
  destruct (names_exportable config) eqn:Hx; [done|].
  destruct (go_prologue_raises config st Hx) as (st' & ev & E & _).
  by rewrite E.
Qed.

End GoFacts.

(** ** Reading event lists *)

Lemma run_invocations_app ev1 ev2 :
  run_invocations (ev1 ++ ev2) = run_invocations ev1 ++ run_invocations ev2.
Proof. apply omap_app. Qed.

Lemma run_invocations_run inv seen out ev :
  run_invocations (EvRun inv seen out :: ev) = inv :: run_invocations ev.
Proof. reflexivity. Qed.

Lemma run_invocations_handler e : run_invocations (handler_events e) = [].
Proof. unfold handler_events. by destruct (exn_is_Exception e). Qed.

Section TraceFacts.

Variable to_yaml : PipelineCfg → string.
Variable root_path : string.
Variable config : DictConfig.
Variable steps : list string.
Variable st0 : State.

Local Abbreviation inv_of := (step_invocation root_path config (rf_config_path st0)).
Local Abbreviation body_trace := (body_trace to_yaml root_path config steps st0).
Local Abbreviation prep_events := (prep_events to_yaml config st0).
Local Abbreviation body_event := (body_event to_yaml root_path config steps st0).

Lemma run_invocations_prep s : run_invocations (prep_events s) = [].
Proof. by destruct s. Qed.

(** The delegations are those of the selected steps, in the order of the
    list of blocks, cut short only by an exception. *)
Lemma body_trace_runs l r ev :
  body_trace l r ev →
  run_invocations ev `prefix_of` (inv_of <$> filter (λ s, step_name s ∈ steps) l) ∧
  (r = Ok tt → run_invocations ev = inv_of <$> filter (λ s, step_name s ∈ steps) l).
Proof.
  induction 1 as [|s rest r ev Hs _ [IH1 IH2]|s rest r ev seen Hs _ _ [IH1 IH2]
                  |s rest seen e Hs _|rest e Hs _].
  - split; [apply prefix_nil|done].
  - by rewrite filter_cons_False.
  - rewrite filter_cons_True by done.
    rewrite run_invocations_app, run_invocations_prep, run_invocations_run.
    rewrite fmap_cons. cbn [app].
    split; [by apply prefix_cons|]. intros Hr. by rewrite IH2.
  - rewrite filter_cons_True by done.
    rewrite run_invocations_app, run_invocations_prep, run_invocations_run.
    rewrite run_invocations_handler, fmap_cons. cbn [app].
    split; [|done]. apply prefix_cons, prefix_nil.
  - rewrite run_invocations_handler. split; [apply prefix_nil|done].
Qed.

Lemma body_event_handler e : Forall body_event (handler_events e).
Proof.
  unfold handler_events. destruct (exn_is_Exception e); [|done].
  apply Forall_singleton. by exists e.
Qed.

Lemma body_event_prep s :
  step_name s ∈ steps → Forall body_event (prep_events s).
Proof. intros Hs. destruct s; try done. by apply Forall_singleton. Qed.

(** Every event of the six blocks is a [body_event]. *)
Lemma body_trace_events l r ev : body_trace l r ev → Forall body_event ev.
Proof.
  induction 1 as [|s rest r ev Hs _ IH|s rest r ev seen Hs Hp _ IH
                  |s rest seen e Hs Hp|rest e Hs _]; [done|done| | |].
  - apply Forall_app. split; [by apply body_event_prep|].
    apply Forall_cons. split; [by exists s|done].
  - apply Forall_app. split; [by apply body_event_prep|].
    apply Forall_cons. split; [by exists s|apply body_event_handler].
  - apply body_event_handler.
Qed.

End TraceFacts.

(** ** The selection matters only through membership of the six names *)

Section Selection.

Variable open_error : string → State → option string.
Variable runner : Invocation → State → option PyExn * gmap string Node.
Variable mkdtemp_name : State → string.
Variable to_yaml : PipelineCfg → string.
Variable root_path : string.

Local Abbreviation go := (go open_error runner mkdtemp_name to_yaml root_path).
Local Abbreviation go_body := (go_body open_error runner to_yaml root_path).

Lemma go_body_ext config steps1 steps2 tmp_dir :
  (∀ s, step_name s ∈ steps1 ↔ step_name s ∈ steps2) →
  go_body config steps1 tmp_dir = go_body config steps2 tmp_dir.
Proof.
  intros H. unfold go_body.
  pose proof (H Step_data_get) as H1. pose proof (H Step_data_clean) as H2.
  pose proof (H Step_data_check) as H3. pose proof (H Step_data_split) as H4.
  pose proof (H Step_train_random_forest) as H5.
  pose proof (H Step_test_model) as H6.
  cbn [step_name] in *.
  by rewrite (bool_decide_ext _ _ H1), (bool_decide_ext _ _ H2),
    (bool_decide_ext _ _ H3), (bool_decide_ext _ _ H4),
    (bool_decide_ext _ _ H5), (bool_decide_ext _ _ H6).
Qed.

Lemma go_selection_ext config f1 f2 :
  (∀ s, step_name s ∈ resolve_steps (with_execute_steps config f1)
        ↔ step_name s ∈ resolve_steps (with_execute_steps config f2)) →
  ∀ st, go (with_execute_steps config f1) st = go (with_execute_steps config f2) st.
Proof.
  intros H st. unfold go.
  change (go_body (with_execute_steps config f1)) with (go_body config).
  change (go_body (with_execute_steps config f2)) with (go_body config).
  cbn [with_execute_steps main project_name experiment_name].
  unfold mbind, Py_bind, py_bind, with_TemporaryDirectory.
  rewrite !(os_environ_set_wandb "WANDB_PROJECT") by auto.
  destruct (has_char "000" (project_name (main config))); [done|].
  cbv beta iota. rewrite !(os_environ_set_wandb "WANDB_RUN_GROUP") by auto.
  destruct (has_char "000" (experiment_name (main config))); [done|].
  cbv beta iota. by rewrite (go_body_ext config _ _ _ H).
Qed.

End Selection.


(** ** Order and selection of the steps *)

Lemma with_execute_steps_id config :
  with_execute_steps config (execute_steps (main config)) = config.
Proof. by destruct config as [[] ? ? ? ?]. Qed.

Lemma run_invocations_go k1 v1 k2 v2 d body :
  run_invocations
    (EvSetenv k1 v1 :: EvSetenv k2 v2 :: EvMkdtemp d :: body ++ [EvCleanup d])
  = run_invocations body.
Proof.
  change (run_invocations (body ++ [EvCleanup d]) = run_invocations body).
  rewrite run_invocations_app. apply app_nil_r.
Qed.

Lemma prefix_fmap {A B} (f : A → B) (l1 l2 : list A) :
  l1 `prefix_of` l2 → f <$> l1 `prefix_of` f <$> l2.
Proof. intros [k ->]. rewrite fmap_app. by exists (f <$> k). Qed.

Section Claims.

Variable open_error : string → State → option string.
Variable runner : Invocation → State → option PyExn * gmap string Node.
Variable mkdtemp_name : State → string.
Variable to_yaml : PipelineCfg → string.
Variable root_path : string.

Local Abbreviation go := (go open_error runner mkdtemp_name to_yaml root_path).

(** C1, as the code has it. The delegations of a run target selected steps
    only, in the fixed order data_get, data_clean, data_check, data_split,
    train_random_forest, test_model: the targets reached form an initial part
    of the selected steps in that order, and all of them when the run ends
    without an exception, so that a step then runs exactly when its name is
    in the resolved selection. Reordering the selection changes nothing. *)
Theorem steps_run_in_fixed_order config st :
  let out := go config st in
  let selected := filter (λ s, step_name s ∈ resolve_steps config) fixed_order in
  run_uris out.2 `prefix_of` (component_dir root_path <$> selected) ∧
  (out.1.1 = Ok tt →
   run_uris out.2 = component_dir root_path <$> selected ∧
   ∀ s, component_dir root_path s ∈ run_uris out.2
        ↔ step_name s ∈ resolve_steps config) ∧
  (∀ l', l' ≡ₚ resolve_steps config →
         go (with_execute_steps config (StepsList l')) st = out).
Proof.
  cbv zeta.
  assert (∀ l', l' ≡ₚ resolve_steps config →
            go (with_execute_steps config (StepsList l')) st = go config st)
    as Hperm.
  { intros l' Hl'.
    transitivity (go (with_execute_steps config (execute_steps (main config))) st);
      [|by rewrite with_execute_steps_id].
    apply go_selection_ext. intros s.
    cbn [resolve_steps with_execute_steps main execute_steps].
    rewrite Hl'. unfold resolve_steps. by destruct config as [[] ? ? ? ?]. }
  destruct (names_exportable config) eqn:Hx.
  2:{ destruct (go_prologue_raises open_error runner mkdtemp_name to_yaml
                  root_path config st Hx) as (st' & ev & E & Hev & _).
      rewrite E in *. cbn [fst snd].
      assert (run_uris ev = []) as -> by (by destruct Hev as [-> | ->]).
      split; [apply prefix_nil|]. split; [discriminate|exact Hperm]. }
  destruct (go config st) as [[r st'] ev] eqn:E. cbn [fst snd].
  destruct (go_trace _ _ _ _ _ _ _ _ _ _ Hx E) as (body & st1 & -> & Ht & _).
  apply body_trace_runs in Ht as [Hpre Heq].
  unfold run_uris. rewrite run_invocations_go.
  assert (∀ l : list Step,
    uri <$> (step_invocation root_path config
               (rf_config_path (body_entry config
                  (mkdtemp_name (env_ready config st)) st)) <$> l)
    = component_dir root_path <$> l) as Hmap.
  { intros l. rewrite <- list_fmap_compose. by apply list_fmap_ext. }
  split; [|split; [|exact Hperm]].
  - rewrite <- Hmap. by apply prefix_fmap.
  - intros Hr. rewrite (Heq Hr), Hmap. split; [done|]. intros s.
    rewrite list_elem_of_fmap. split.
    + intros (s' & Hs' & Hin). apply component_dir_inj in Hs' as <-.
      by apply list_elem_of_filter in Hin as [? _].
    + intros Hs. exists s. split; [done|]. apply list_elem_of_filter.
      split; [done|]. destruct s; unfold fixed_order; set_solver.
Qed.

End Claims.

(** A run of the sample configuration that selects [test_model] before
    [data_get]: the delegations come in the fixed order. *)
Lemma steps_run_in_fixed_order_witness :
  let out := go sample_open_error runner_ok sample_mkdtemp sample_to_yaml "/srv/nyc"
               (sample_config (StepsList ["test_model"; "data_get"]))
               sample_state in
  out.1.1 = Ok tt ∧
  run_uris out.2 = ["/srv/nyc/components/data_get";
                    "/srv/nyc/components/test_model"].
Proof.
  cbv zeta. split; [vm_compute; reflexivity|].
  etransitivity;
    [apply (steps_run_in_fixed_order sample_open_error runner_ok sample_mkdtemp sample_to_yaml
              "/srv/nyc"
              (sample_config (StepsList ["test_model"; "data_get"]))
              sample_state);
     vm_compute; reflexivity|].
  vm_compute. reflexivity.
Defined.

(** C1 as stated fails: with [data_get] and [data_clean] selected and the
    delegation of [data_get] raising, [data_clean] is a member of the
    resolved selection and is not run. *)
Lemma selected_step_not_run_after_failure :
  let config := sample_config (StepsList ["data_get"; "data_clean"]) in
  let out := go sample_open_error
               (runner_raising_at "/srv/nyc/components/data_get" sample_error)
               sample_mkdtemp sample_to_yaml "/srv/nyc" config sample_state in
  run_uris out.2 = ["/srv/nyc/components/data_get"] ∧
  ¬ (∀ s, component_dir "/srv/nyc" s ∈ run_uris out.2
          ↔ step_name s ∈ resolve_steps config).
Proof.
  cbv zeta.
  assert (run_uris
            (go sample_open_error
               (runner_raising_at "/srv/nyc/components/data_get" sample_error)
               sample_mkdtemp sample_to_yaml "/srv/nyc"
               (sample_config (StepsList ["data_get"; "data_clean"]))
               sample_state).2
          = ["/srv/nyc/components/data_get"]) as ->
    by (vm_compute; reflexivity).
  split; [done|]. intros H. specialize (H Step_data_clean).
  apply proj2 in H. rewrite list_elem_of_singleton in H.
  assert (step_name Step_data_clean
          ∈ resolve_steps (sample_config (StepsList ["data_get"; "data_clean"])))
    as Hin by (apply (bool_decide_unpack _); vm_compute; exact I).
  apply H in Hin. vm_compute in Hin. discriminate Hin.
Qed.

(** ** Failure of a delegation *)

Lemma split_at_unique {A} (P : A → bool) (l1 l2 pre post : list A) (x1 x : A) :
  Forall (λ y, P y = false) l1 → Forall (λ y, P y = false) l2 → P x = true →
  l1 ++ x1 :: l2 = pre ++ x :: post →
  pre = l1 ∧ x = x1 ∧ post = l2.
Proof.
  intros H1 H2 Hx. revert pre. induction H1 as [|a l1 Ha _ IH]; intros pre Heq.
  - destruct pre as [|b pre]; cbn [app] in Heq.
    + by injection Heq as -> ->.
    + injection Heq as -> ->.
      rewrite Forall_app, Forall_cons in H2. destruct H2 as (_ & Hx' & _).
      congruence.
  - destruct pre as [|b pre]; cbn [app] in Heq.
    + injection Heq as -> _. congruence.
    + injection Heq as -> Heq.
      by destruct (IH _ Heq) as (-> & -> & ->).
Qed.

Lemma contains_prefix needle hay :
  String.prefix needle hay = true → contains needle hay = true.
Proof. destruct hay; cbn [contains]; intros ->; done. Qed.

Lemma string_prefix_refl s : String.prefix s s = true.
Proof.
  induction s as [|a s IH]; [done|]. cbn [String.prefix].
  by destruct (ascii_dec a a).
Qed.

(** The text appended to a message is found in it. *)
Lemma contains_app_r pre s : contains s (pre +:+ s) = true.
Proof.
  induction pre as [|a pre IH].
  - apply contains_prefix, string_prefix_refl.
  - change (String a pre +:+ s) with (String a (pre +:+ s)).
    cbn [contains]. rewrite IH. apply orb_true_r.
Qed.

Lemma handler_events_not_raised e :
  Forall (λ x, raised_run x = false) (handler_events e).
Proof.
  unfold handler_events. destruct (exn_is_Exception e); [|done].
  by apply Forall_singleton.
Qed.

Lemma prep_events_not_raised to_yaml config st0 s :
  Forall (λ x, raised_run x = false) (prep_events to_yaml config st0 s).
Proof. destruct s; try done. by apply Forall_singleton. Qed.

(** Either no delegation of the six blocks raised, or the first one that did
    ends the event list, followed only by what the handler emits. *)
Lemma body_trace_raise to_yaml root_path config steps st0 l r body :
  body_trace to_yaml root_path config steps st0 l r body →
  Forall (λ x, raised_run x = false) body ∨
  ∃ pre inv seen e,
    body = pre ++ EvRun inv seen (Some e) :: handler_events e ∧
    r = Raise e ∧ Forall (λ x, raised_run x = false) pre.
Proof.
  induction 1 as [|s rest r ev Hs _ IH|s rest r ev seen Hs Hp _ IH
                  |s rest seen e Hs Hp|rest e Hs _].
  - by left.
  - done.
  - destruct IH as [IH|(pre & inv & seen' & e & -> & -> & Hpre)].
    + left. apply Forall_app. split; [apply prep_events_not_raised|].
      by apply Forall_cons.
    + right. eexists (_ ++ _ :: pre), inv, seen', e.
      split; [by rewrite <- app_assoc|]. split; [done|].
      apply Forall_app. split; [apply prep_events_not_raised|].
      by apply Forall_cons.
  - right. eexists _, _, seen, e. split; [done|]. split; [done|].
    apply prep_events_not_raised.
  - left. apply handler_events_not_raised.
Qed.

(** C2, as the code has it. When a delegation raises [e], the run ends with
    that same [e]; what follows the delegation in the event list is the
    handler's log line [MLflow run failed: <str(e)>] (for an [Exception]; it
    carries the text of the cause and nothing about the step) and then only
    the removal of the scratch directory: no later step is delegated. *)
Theorem failed_step_logged_and_reraised open_error runner mkdtemp_name to_yaml root_path
    config st pre inv seen e post :
  (go open_error runner mkdtemp_name to_yaml root_path config st).2
    = pre ++ EvRun inv seen (Some e) :: post →
  (go open_error runner mkdtemp_name to_yaml root_path config st).1.1 = Raise e ∧
  post = handler_events e ++ [EvCleanup (mkdtemp_name (env_ready config st))] ∧
  run_invocations post = [] ∧
  (exn_is_Exception e = true →
   log_messages post = ["MLflow run failed: " +:+ exn_str e] ∧
   contains (exn_str e) ("MLflow run failed: " +:+ exn_str e) = true).
Proof.
  intros Heq0.
  assert (names_exportable config = true) as Hx.
  { apply (go_run_exportable open_error runner mkdtemp_name to_yaml root_path
             config st inv seen (Some e)).
    rewrite Heq0. apply elem_of_app. right. apply elem_of_cons. by left. }
  revert Heq0.
  destruct (go _ _ _ _ _ config st) as [[r st'] ev] eqn:E. cbn [fst snd].
  destruct (go_trace _ _ _ _ _ _ _ _ _ _ Hx E) as (body & st1 & -> & Ht & _).
  intros Heq.
  assert (post = handler_events e
                   ++ [EvCleanup (mkdtemp_name (env_ready config st))]
          ∧ r = Raise e) as [-> ->].
  { apply body_trace_raise in Ht
      as [Hno|(pre0 & inv0 & seen0 & e0 & -> & -> & Hpre0)].
    - exfalso.
      assert (Forall (λ x, raised_run x = false)
                (pre ++ EvRun inv seen (Some e) :: post)) as Hall.
      { rewrite <- Heq. repeat (apply Forall_cons; split; [done|]).
        apply Forall_app. split; [done|]. by apply Forall_singleton. }
      rewrite Forall_app, Forall_cons in Hall. by destruct Hall as (_ & ? & _).
    - rewrite <- app_assoc in Heq.
      destruct (split_at_unique raised_run
                  (EvSetenv "WANDB_PROJECT" (project_name (main config))
                   :: EvSetenv "WANDB_RUN_GROUP" (experiment_name (main config))
                   :: EvMkdtemp (mkdtemp_name (env_ready config st)) :: pre0)
                  (handler_events e0
                     ++ [EvCleanup (mkdtemp_name (env_ready config st))])
                  pre post (EvRun inv0 seen0 (Some e0))
                  (EvRun inv seen (Some e))) as (_ & Hrun & ->).
      + by repeat (apply Forall_cons; split; [done|]).
      + apply Forall_app. split; [apply handler_events_not_raised|].
        by apply Forall_singleton.
      + done.
      + exact Heq.
      + by injection Hrun as -> -> ->. }
  split; [done|]. split; [done|]. split.
  - rewrite run_invocations_app, run_invocations_handler. done.
  - intros He. unfold handler_events. rewrite He. split; [done|].
    apply contains_app_r.
Qed.

(** The delegation of [data_get] raises in a run that also selects
    [data_clean]. *)
Lemma failed_step_logged_and_reraised_witness :
  let config := sample_config (StepsList ["data_get"; "data_clean"]) in
  let runner := runner_raising_at "/srv/nyc/components/data_get" sample_error in
  let post := [EvLogError "MLflow run failed: Non-zero exit code: 1";
               EvCleanup "/tmp/tmpk3x9a1"] in
  (go sample_open_error runner sample_mkdtemp sample_to_yaml "/srv/nyc" config
     sample_state).1.1
    = Raise sample_error ∧
  post = handler_events sample_error
           ++ [EvCleanup (sample_mkdtemp (env_ready config sample_state))] ∧
  run_invocations post = [] ∧
  (exn_is_Exception sample_error = true →
   log_messages post = ["MLflow run failed: " +:+ exn_str sample_error] ∧
   contains (exn_str sample_error)
     ("MLflow run failed: " +:+ exn_str sample_error) = true).
Proof.
  cbv zeta.
  apply (failed_step_logged_and_reraised
           sample_open_error
               (runner_raising_at "/srv/nyc/components/data_get" sample_error)
           sample_mkdtemp sample_to_yaml "/srv/nyc"
           (sample_config (StepsList ["data_get"; "data_clean"])) sample_state
           [EvSetenv "WANDB_PROJECT" "nyc_airbnb";
            EvSetenv "WANDB_RUN_GROUP" "development";
            EvMkdtemp "/tmp/tmpk3x9a1"]
           (step_invocation "/srv/nyc"
              (sample_config (StepsList ["data_get"; "data_clean"]))
              "" Step_data_get)
           (body_entry (sample_config (StepsList ["data_get"; "data_clean"]))
              "/tmp/tmpk3x9a1" sample_state)).
  vm_compute. reflexivity.
Defined.

(** C2 as stated fails: when the delegation of [data_get] raises, the one
    message logged is [MLflow run failed: Non-zero exit code: 1]; no logged
    message names the step. *)
Lemma failure_log_omits_step_name :
  let out := go sample_open_error
               (runner_raising_at "/srv/nyc/components/data_get" sample_error)
               sample_mkdtemp sample_to_yaml "/srv/nyc"
               (sample_config (StepsList ["data_get"])) sample_state in
  out.1.1 = Raise sample_error ∧
  run_uris out.2 = ["/srv/nyc/components/data_get"] ∧
  log_messages out.2 = ["MLflow run failed: Non-zero exit code: 1"] ∧
  ¬ ∃ msg, msg ∈ log_messages out.2 ∧
           contains (step_name Step_data_get) msg = true.
Proof.
  cbv zeta. split; [vm_compute; reflexivity|].
  split; [vm_compute; reflexivity|].
  assert (log_messages
            (go sample_open_error
               (runner_raising_at "/srv/nyc/components/data_get" sample_error)
               sample_mkdtemp sample_to_yaml "/srv/nyc"
               (sample_config (StepsList ["data_get"])) sample_state).2
          = ["MLflow run failed: Non-zero exit code: 1"]) as ->
    by (vm_compute; reflexivity).
  split; [done|]. intros (msg & Hin & Hc).
  apply list_elem_of_singleton in Hin as ->. vm_compute in Hc. discriminate.
Qed.

(** ** A run that selects [data_check] only *)

(** C3. With the selection resolved to [data_check] alone and the price
    bounds 10 and 500 and the threshold 0.2 configured, a run (of a
    configuration whose project and experiment names can be exported) makes
    exactly one delegation, to [components/data_check] under the project
    root, entry point [main], with the five parameters of the
    specification. *)
Theorem data_check_only_invocation open_error runner mkdtemp_name to_yaml root_path
    config st :
  names_exportable config = true →
  resolve_steps config = ["data_check"] →
  min_price (etl config) = VInt 10 →
  max_price (etl config) = VInt 500 →
  kl_threshold (data_check config) = VFloat "0.2" →
  run_invocations (go open_error runner mkdtemp_name to_yaml root_path config st).2
  = [ {| uri := os_path_join root_path ["components"; "data_check"];
         entry_point := "main";
         parameters :=
           {[ "csv" := VStr "nyc_airbnb/clean_data.csv:latest";
              "ref" := VStr "nyc_airbnb/clean_data.csv:reference";
              "kl_threshold" := VFloat "0.2";
              "min_price" := VInt 10;
              "max_price" := VInt 500 ]} |} ].
Proof.
  intros Hx Hsel Hmin Hmax Hkl. rewrite go_eq by done. cbv zeta. rewrite Hsel.
  unfold fixed_order. cbn [blocks_outcome]. unfold block_outcome.
  cbn [step_name]. eval_selection. cbv iota. cbn [prepare app].
  unfold step_invocation, component_dir. cbn [step_parameters step_name].
  rewrite Hmin, Hmax, Hkl.
  destruct (runner _ _) as [[e|] f]; cbn [snd];
    rewrite run_invocations_go; cbn [app]; rewrite run_invocations_run;
    [by rewrite run_invocations_handler|done].
Qed.

Lemma data_check_only_invocation_witness :
  run_invocations
    (go sample_open_error runner_ok sample_mkdtemp sample_to_yaml "/srv/nyc"
       (sample_config (StepsStr "data_check")) sample_state).2
  = [ {| uri := os_path_join "/srv/nyc" ["components"; "data_check"];
         entry_point := "main";
         parameters :=
           {[ "csv" := VStr "nyc_airbnb/clean_data.csv:latest";
              "ref" := VStr "nyc_airbnb/clean_data.csv:reference";
              "kl_threshold" := VFloat "0.2";
              "min_price" := VInt 10;
              "max_price" := VInt 500 ]} |} ].
Proof.
  apply (data_check_only_invocation sample_open_error runner_ok sample_mkdtemp sample_to_yaml
           "/srv/nyc" (sample_config (StepsStr "data_check")) sample_state);
    vm_compute; reflexivity.
Defined.

(** ** What the events of a run can be *)

Section GoEvents.

Variable open_error : string → State → option string.
Variable runner : Invocation → State → option PyExn * gmap string Node.
Variable mkdtemp_name : State → string.
Variable to_yaml : PipelineCfg → string.
Variable root_path : string.

Local Abbreviation go := (go open_error runner mkdtemp_name to_yaml root_path).

Lemma go_body_events config st :
  names_exportable config = true →
  ∃ body,
    (go config st).2
    = EvSetenv "WANDB_PROJECT" (project_name (main config))
      :: EvSetenv "WANDB_RUN_GROUP" (experiment_name (main config))
      :: EvMkdtemp (mkdtemp_name (env_ready config st))
      :: body ++ [EvCleanup (mkdtemp_name (env_ready config st))] ∧
    Forall (body_event to_yaml root_path config (resolve_steps config)
              (body_entry config (mkdtemp_name (env_ready config st)) st))
      body.
Proof.
  intros Hx. destruct (go config st) as [[r st'] ev] eqn:E. cbn [snd].
  destruct (go_trace _ _ _ _ _ _ _ _ _ _ Hx E) as (body & st1 & -> & Ht & _).
  exists body. split; [done|]. by eapply body_trace_events.
Qed.

(** A delegation found in the events of a run is that of a selected step,
    with that step's parameters, and sees the environment as [go] set it. *)
Lemma go_run_event config st inv seen out :
  EvRun inv seen out ∈ (go config st).2 →
  ∃ s, step_name s ∈ resolve_steps config ∧
       inv = step_invocation root_path config (rf_config_path st) s ∧
       environ seen = environ (env_ready config st) ∧
       cwd seen = cwd st ∧
       (s = Step_train_random_forest →
        fs seen !! rf_config_path st = Some (File (to_yaml (pipeline config)))).
Proof.
  intros Hin0.
  pose proof (go_event_exportable open_error runner mkdtemp_name to_yaml
                root_path config st _ Hin0 eq_refl) as Hx.
  revert Hin0.
  destruct (go_body_events config st Hx) as (body & -> & Hall).
  rewrite !elem_of_cons, elem_of_app, list_elem_of_singleton.
  intros [?|[?|[?|[Hin|?]]]]; try discriminate.
  rewrite Forall_forall in Hall. apply Hall in Hin as (s & Hs & -> & He & Hc & Hf).
  by exists s.
Qed.

(** A file write found in the events of a run is the one of the training
    block. *)
Lemma go_write_event config st p c :
  EvWrite p c ∈ (go config st).2 →
  step_name Step_train_random_forest ∈ resolve_steps config ∧
  p = rf_config_path st ∧ c = to_yaml (pipeline config).
Proof.
  intros Hin0.
  pose proof (go_event_exportable open_error runner mkdtemp_name to_yaml
                root_path config st _ Hin0 eq_refl) as Hx.
  revert Hin0.
  destruct (go_body_events config st Hx) as (body & -> & Hall).
  rewrite !elem_of_cons, elem_of_app, list_elem_of_singleton.
  intros [?|[?|[?|[Hin|?]]]]; try discriminate.
  rewrite Forall_forall in Hall. by apply Hall in Hin.
Qed.

Lemma elem_of_run_invocations inv ev :
  inv ∈ run_invocations ev ↔ ∃ seen out, EvRun inv seen out ∈ ev.
Proof.
  unfold run_invocations. rewrite list_elem_of_omap. split.
  - intros (e & Hin & He). destruct e; try discriminate.
    injection He as ->. eauto.
  - intros (seen & out & Hin). by exists (EvRun inv seen out).
Qed.

(** C5. A step whose name is not in the resolved selection is not
    delegated: no delegation of the run targets its component directory or
    carries its parameter mapping; and when that step is
    [train_random_forest], the driver writes no file at all. *)
Theorem unselected_step_untouched config st s :
  step_name s ∉ resolve_steps config →
  (component_dir root_path s ∉ run_uris (snd (go config st))) ∧
  (∀ rf_config, step_invocation root_path config rf_config s
                ∉ run_invocations (snd (go config st))) ∧
  (s = Step_train_random_forest →
   ∀ p c, ¬ (EvWrite p c ∈ snd (go config st))).
Proof.
  intros Hs. split; [|split].
  - unfold run_uris. rewrite list_elem_of_fmap. intros (inv & Huri & Hin).
    apply elem_of_run_invocations in Hin as (seen & out & Hin).
    apply go_run_event in Hin as (s' & Hs' & -> & _).
    apply component_dir_inj in Huri as ->. done.
  - intros rf Hin.
    apply elem_of_run_invocations in Hin as (seen & out & Hin).
    apply go_run_event in Hin as (s' & Hs' & Heq & _).
    apply (f_equal uri) in Heq. apply component_dir_inj in Heq as ->. done.
  - intros -> p c Hin. by apply go_write_event in Hin as (? & _).
Qed.

End GoEvents.

(** [train_random_forest] left out of the selection of the sample run. *)
Lemma unselected_step_untouched_witness :
  let ev := snd (go sample_open_error runner_ok sample_mkdtemp sample_to_yaml "/srv/nyc"
                   (sample_config (StepsStr "data_get,test_model"))
                   sample_state) in
  (component_dir "/srv/nyc" Step_train_random_forest ∉ run_uris ev) ∧
  (∀ rf_config,
     step_invocation "/srv/nyc" (sample_config (StepsStr "data_get,test_model"))
       rf_config Step_train_random_forest ∉ run_invocations ev) ∧
  (Step_train_random_forest = Step_train_random_forest →
   ∀ p c, ¬ (EvWrite p c ∈ ev)).
Proof.
  cbv zeta.
  apply (unselected_step_untouched sample_open_error runner_ok sample_mkdtemp sample_to_yaml
           "/srv/nyc" (sample_config (StepsStr "data_get,test_model"))
           sample_state Step_train_random_forest).
  apply (bool_decide_unpack _). vm_compute. exact I.
Defined.

(** ** Splitting the comma-separated selection *)

Lemma split_no_sep sep s : has_char sep s = false → split sep s = [s].
Proof.
  induction s as [|a s IH]; [done|]. cbn [has_char split].
  intros [Ha Hs]%orb_false_elim. by rewrite Ha, (IH Hs).
Qed.

Lemma split_app_sep sep a b :
  has_char sep a = false →
  split sep (a +:+ String sep b) = a :: split sep b.
Proof.
  induction a as [|c a IH]; intros Ha.
  - change ("" +:+ String sep b) with (String sep b). cbn [split].
    by rewrite Ascii.eqb_refl.
  - cbn [has_char] in Ha. apply orb_false_elim in Ha as [Hc Ha].
    change (String c a +:+ String sep b) with (String c (a +:+ String sep b)).
    cbn [split]. by rewrite Hc, (IH Ha).
Qed.

(** Splitting what [",".join] built gives the list back, whatever the
    fragments hold besides commas. *)
Lemma split_concat sep L :
  L ≠ [] → Forall (λ n, has_char sep n = false) L →
  split sep (String.concat (String sep EmptyString) L) = L.
Proof.
  intros Hne HL. induction HL as [|n L Hn HL IH]; [done|].
  destruct L as [|m L].
  - cbn [String.concat]. by apply split_no_sep.
  - change (String.concat (String sep "") (n :: m :: L))
      with (n +:+ String sep (String.concat (String sep "") (m :: L))).
    rewrite (split_app_sep _ _ _ Hn). f_equal. by apply IH.
Qed.

Lemma step_name_nonempty s : step_name s ≠ "".
Proof. by destruct s. Qed.

Lemma step_name_no_whitespace s : has_whitespace (step_name s) = false.
Proof. by destruct s. Qed.

Lemma step_name_no_comma s : has_char "," (step_name s) = false.
Proof. by destruct s. Qed.

(** For the six names, membership in the split of the joined list is
    membership in the list. *)
Lemma step_in_split_concat L s :
  Forall (λ n, has_char "," n = false) L →
  step_name s ∈ split "," (String.concat "," L) ↔ step_name s ∈ L.
Proof.
  intros HL. destruct L as [|n L].
  - cbn [String.concat split]. rewrite list_elem_of_singleton, elem_of_nil.
    split; [|done]. apply step_name_nonempty.
  - by rewrite split_concat.
Qed.

(** C4. For every list [L] of step names, giving [execute_steps] as the
    string [",".join(L)] yields the same run as giving it as the list [L]:
    the same result, final state and events, hence the same delegations in
    the same order with the same parameters. The same holds for any list of
    names free of commas, known to the driver or not. *)
Theorem comma_string_same_as_list open_error runner mkdtemp_name to_yaml root_path
    config st :
  (∀ L : list Step,
     go open_error runner mkdtemp_name to_yaml root_path
       (with_execute_steps config
          (StepsStr (String.concat "," (step_name <$> L)))) st
     = go open_error runner mkdtemp_name to_yaml root_path
         (with_execute_steps config (StepsList (step_name <$> L))) st) ∧
  (∀ L : list string,
     Forall (λ n, has_char "," n = false) L →
     go open_error runner mkdtemp_name to_yaml root_path
       (with_execute_steps config (StepsStr (String.concat "," L))) st
     = go open_error runner mkdtemp_name to_yaml root_path
         (with_execute_steps config (StepsList L)) st).
Proof.
  assert (∀ L : list string,
     Forall (λ n, has_char "," n = false) L →
     go open_error runner mkdtemp_name to_yaml root_path
       (with_execute_steps config (StepsStr (String.concat "," L))) st
     = go open_error runner mkdtemp_name to_yaml root_path
         (with_execute_steps config (StepsList L)) st) as Hgen.
  { intros L HL. apply go_selection_ext. intros s.
    cbn [resolve_steps with_execute_steps main execute_steps].
    by apply step_in_split_concat. }
  split; [|exact Hgen]. intros L. apply Hgen.
  apply Forall_fmap, Forall_forall. intros s _. apply step_name_no_comma.
Qed.

Lemma comma_string_same_as_list_witness :
  go sample_open_error runner_ok sample_mkdtemp sample_to_yaml "/srv/nyc"
    (with_execute_steps (sample_config (StepsList []))
       (StepsStr "data_get,data_clean,mystery_step")) sample_state
  = go sample_open_error runner_ok sample_mkdtemp sample_to_yaml "/srv/nyc"
      (with_execute_steps (sample_config (StepsList []))
         (StepsList ["data_get"; "data_clean"; "mystery_step"])) sample_state.
Proof.
  apply (proj2 (comma_string_same_as_list sample_open_error runner_ok sample_mkdtemp
                  sample_to_yaml "/srv/nyc" (sample_config (StepsList []))
                  sample_state) ["data_get"; "data_clean"; "mystery_step"]).
  apply (bool_decide_unpack _). vm_compute. exact I.
Defined.

(** C10. Splitting the selection string neither trims nor drops anything:
    the fragments between the commas come back as they are, blanks and empty
    fragments included. A fragment that holds whitespace equals none of the
    six step names, so it (like an empty fragment) is ignored without a
    trace: the run is the run of the selection without it, and a run on a
    string is the run on its fragments that are neither empty nor hold
    whitespace. The empty string resolves to the single empty name and
    delegates and logs nothing; the run then ends normally (when the project
    and experiment names can be exported). *)
Theorem split_keeps_blanks_and_empties open_error runner mkdtemp_name to_yaml root_path
    config st :
  (∀ L, L ≠ [] → Forall (λ n, has_char "," n = false) L →
        resolve_steps
          (with_execute_steps config (StepsStr (String.concat "," L))) = L) ∧
  (∀ frag s, has_whitespace frag = true → frag ≠ step_name s) ∧
  (∀ L1 frag L2,
     Forall (λ n, has_char "," n = false) (L1 ++ frag :: L2) →
     has_whitespace frag = true ∨ frag = "" →
     go open_error runner mkdtemp_name to_yaml root_path
       (with_execute_steps config
          (StepsStr (String.concat "," (L1 ++ frag :: L2)))) st
     = go open_error runner mkdtemp_name to_yaml root_path
         (with_execute_steps config (StepsList (L1 ++ L2))) st) ∧
  (∀ str,
     go open_error runner mkdtemp_name to_yaml root_path
       (with_execute_steps config (StepsStr str)) st
     = go open_error runner mkdtemp_name to_yaml root_path
         (with_execute_steps config
            (StepsList (filter (λ frag, has_whitespace frag = false ∧ frag ≠ "")
                          (split "," str)))) st) ∧
  (resolve_steps (with_execute_steps config (StepsStr "")) = [""] ∧
   (names_exportable config = true →
    fst (fst (go open_error runner mkdtemp_name to_yaml root_path
                (with_execute_steps config (StepsStr "")) st)) = Ok tt) ∧
   run_invocations
     (snd (go open_error runner mkdtemp_name to_yaml root_path
             (with_execute_steps config (StepsStr "")) st)) = [] ∧
   log_messages
     (snd (go open_error runner mkdtemp_name to_yaml root_path
             (with_execute_steps config (StepsStr "")) st)) = []).
Proof.
  assert (∀ frag s, has_whitespace frag = true → frag ≠ step_name s) as Hws.
  { intros frag s Hf ->. by rewrite step_name_no_whitespace in Hf. }
  split; [|split; [exact Hws|split; [|split]]].
  - intros L Hne HL.
    cbn [resolve_steps with_execute_steps main execute_steps].
    by apply split_concat.
  - intros L1 frag L2 HL Hfrag. apply go_selection_ext. intros s.
    cbn [resolve_steps with_execute_steps main execute_steps].
    rewrite split_concat by (done || by destruct L1).
    rewrite !elem_of_app, elem_of_cons.
    assert (step_name s ≠ frag) as Hne.
    { destruct Hfrag as [Hf| ->]; [intros <-|apply step_name_nonempty].
      by rewrite step_name_no_whitespace in Hf. }
    tauto.
  - intros str. apply go_selection_ext. intros s.
    cbn [resolve_steps with_execute_steps main execute_steps].
    rewrite list_elem_of_filter.
    pose proof (step_name_no_whitespace s). pose proof (step_name_nonempty s).
    tauto.
  - split; [done|].
    destruct (names_exportable config) eqn:Hx.
    + rewrite go_eq by done. cbv zeta.
      change (resolve_steps (with_execute_steps config (StepsStr "")))
        with [""].
      unfold fixed_order. cbn [blocks_outcome]. unfold block_outcome.
      cbn [step_name]. eval_selection. cbv iota. cbn [fst snd].
      split; [done|]. split; [by rewrite run_invocations_go|reflexivity].
    + split; [discriminate|].
      destruct (go_prologue_raises open_error runner mkdtemp_name to_yaml
                  root_path (with_execute_steps config (StepsStr "")) st Hx)
        as (st' & ev & -> & [-> | ->] & _); by cbn [snd].
Qed.

(** The selection ["data_get, data_clean"]: the blank stays with the second
    name, and the run is that of [data_get] alone. *)
Lemma split_keeps_blanks_and_empties_witness :
  resolve_steps
    (with_execute_steps (sample_config (StepsList []))
       (StepsStr "data_get, data_clean")) = ["data_get"; " data_clean"] ∧
  go sample_open_error runner_ok sample_mkdtemp sample_to_yaml "/srv/nyc"
    (with_execute_steps (sample_config (StepsList []))
       (StepsStr "data_get, data_clean")) sample_state
  = go sample_open_error runner_ok sample_mkdtemp sample_to_yaml "/srv/nyc"
      (with_execute_steps (sample_config (StepsList []))
         (StepsList ["data_get"])) sample_state.
Proof.
  pose proof (split_keeps_blanks_and_empties sample_open_error runner_ok sample_mkdtemp
                sample_to_yaml "/srv/nyc" (sample_config (StepsList []))
                sample_state) as (H1 & _ & H3 & _ & _).
  split.
  - apply (H1 ["data_get"; " data_clean"]); [discriminate|].
    apply (bool_decide_unpack _). vm_compute. exact I.
  - apply (H3 ["data_get"] " data_clean" []).
    + apply (bool_decide_unpack _). vm_compute. exact I.
    + left. vm_compute. reflexivity.
Defined.

(** ** The training configuration file *)

Lemma normpath_abs p : startswith_sep p = true → startswith_sep (normpath p) = true.
Proof.
  destruct p as [|c p]; [discriminate|]. intros Hp. unfold normpath.
  change (String.eqb (String c p) "") with false. cbv iota zeta. rewrite Hp.
  by destruct (String.prefix "//" (String c p)
               && negb (String.prefix "///" (String c p)))%bool.
Qed.

Lemma rf_config_path_abs st :
  startswith_sep (cwd st) = true → startswith_sep (rf_config_path st) = true.
Proof.
  intros Hc. apply normpath_abs. unfold os_path_join, join_component.
  cbn [fold_left startswith_sep Ascii.eqb Bool.eqb].
  destruct (cwd st) as [|c w]; [discriminate|].
  by destruct (String.eqb (String c w) "" || endswith_sep (String c w))%bool.
Qed.

(** In the events of the six blocks, the delegation of the training step
    comes right after the write of the configuration file. *)
Lemma body_trace_train to_yaml root_path config steps st0 l r body seen out :
  body_trace to_yaml root_path config steps st0 l r body →
  EvRun (step_invocation root_path config (rf_config_path st0)
           Step_train_random_forest) seen out ∈ body →
  ∃ pre post,
    body = pre ++ EvWrite (rf_config_path st0) (to_yaml (pipeline config))
                :: EvRun (step_invocation root_path config (rf_config_path st0)
                            Step_train_random_forest) seen out
                :: post.
Proof.
  assert (∀ s, EvRun (step_invocation root_path config
                        (rf_config_path st0) Step_train_random_forest)
                 seen out
               ∉ prep_events to_yaml config st0 s) as Hprep.
  { intros s. destruct s; cbn [prep_events];
      rewrite ?elem_of_nil, ?list_elem_of_singleton; [tauto..|discriminate|tauto]. }
  assert (∀ e, EvRun (step_invocation root_path config
                        (rf_config_path st0) Step_train_random_forest)
                 seen out ∉ handler_events e) as Hhandler.
  { intros e. unfold handler_events. destruct (exn_is_Exception e);
      rewrite ?elem_of_nil, ?list_elem_of_singleton; [discriminate|tauto]. }
  assert (∀ s seen' out' post,
            EvRun (step_invocation root_path config (rf_config_path st0)
                     Step_train_random_forest) seen out
            = EvRun (step_invocation root_path config (rf_config_path st0) s)
                seen' out' →
            ∃ pre post0,
              prep_events to_yaml config st0 s
                ++ EvRun (step_invocation root_path config (rf_config_path st0) s)
                     seen' out' :: post
              = pre ++ EvWrite (rf_config_path st0) (to_yaml (pipeline config))
                  :: EvRun (step_invocation root_path config
                              (rf_config_path st0) Step_train_random_forest)
                       seen out
                  :: post0) as Hhead.
  { intros s seen' out' post Heq.
    assert (Step_train_random_forest = s) as <-.
    { apply (f_equal (λ e, match e with EvRun i _ _ => uri i | _ => "" end))
        in Heq.
      change (component_dir root_path Step_train_random_forest
              = component_dir root_path s) in Heq.
      by apply component_dir_inj in Heq. }
    injection Heq as <- <-. by exists [], post. }
  induction 1 as [|s rest r ev Hs _ IH|s rest r ev seen' Hs Hp _ IH
                  |s rest seen' e Hs Hp|rest e Hs _]; intros Hin.
  - by apply elem_of_nil in Hin.
  - by apply IH.
  - apply elem_of_app in Hin as [Hin|Hin]; [by apply Hprep in Hin|].
    apply elem_of_cons in Hin as [Heq|Hin]; [by apply Hhead|].
    destruct (IH Hin) as (pre & post & ->).
    eexists (_ ++ _ :: pre), post. by rewrite <- app_assoc.
  - apply elem_of_app in Hin as [Hin|Hin]; [by apply Hprep in Hin|].
    apply elem_of_cons in Hin as [Heq|Hin]; [by apply Hhead|].
    by apply Hhandler in Hin.
  - by apply Hhandler in Hin.
Qed.

(** C6. Every delegation to [components/train_random_forest] comes right
    after the write of [to_yaml(config["pipeline"])], the whole section, to
    [os.path.abspath("rf_config.json")]; the file is in place when the
    delegation starts; its [rf_config] parameter is that path (absolute when
    the working directory is) and its [output_artifact] parameter is
    [config.pipeline.export_artifact]. When the selection holds
    [train_random_forest] and the run ends without an exception, that
    delegation is made. *)
Theorem train_config_serialized open_error runner mkdtemp_name to_yaml root_path
    config st :
  let ev := snd (go open_error runner mkdtemp_name to_yaml root_path config st) in
  let rf_config := rf_config_path st in
  (∀ inv seen out,
     EvRun inv seen out ∈ ev →
     uri inv = component_dir root_path Step_train_random_forest →
     (∃ pre post,
        ev = pre ++ EvWrite rf_config (to_yaml (pipeline config))
                 :: EvRun inv seen out :: post) ∧
     fs seen !! rf_config = Some (File (to_yaml (pipeline config))) ∧
     parameters inv !! "rf_config" = Some (VStr rf_config) ∧
     parameters inv !! "output_artifact"
       = Some (VStr (export_artifact (pipeline config)))) ∧
  (step_name Step_train_random_forest ∈ resolve_steps config →
   fst (fst (go open_error runner mkdtemp_name to_yaml root_path config st)) = Ok tt →
   ∃ inv seen out,
     EvRun inv seen out ∈ ev ∧
     uri inv = component_dir root_path Step_train_random_forest) ∧
  (startswith_sep (cwd st) = true → startswith_sep rf_config = true).
Proof.
  cbv zeta. split; [|split; [|apply rf_config_path_abs]].
  - intros inv seen out Hin Huri.
    destruct (go_run_event _ _ _ _ _ _ _ _ _ _ Hin)
      as (s & Hs & -> & He & Hc & Hf).
    apply component_dir_inj in Huri as ->.
    split; [|split; [by apply Hf|split; [|done]]].
    + pose proof (go_run_exportable _ _ _ _ _ _ _ _ _ _ Hin) as Hx.
      destruct (go open_error runner mkdtemp_name to_yaml root_path config st)
        as [[r st'] ev] eqn:E. cbn [snd] in *.
      destruct (go_trace _ _ _ _ _ _ _ _ _ _ Hx E)
        as (body & st1 & -> & Ht & _).
      rewrite !elem_of_cons, elem_of_app, list_elem_of_singleton in Hin.
      destruct Hin as [?|[?|[?|[Hin|?]]]]; try discriminate.
      destruct (body_trace_train _ _ _ _ _ _ _ _ _ _ Ht Hin)
        as (pre & post & ->).
      eexists (_ :: _ :: _ :: pre), (post ++ [_]).
      by rewrite <- app_assoc.
    + unfold step_invocation, parameters, step_parameters.
      by simplify_map_eq.
  - intros Hs Hr.
    pose proof (go_ok_exportable _ _ _ _ _ _ _ Hr) as Hx.
    destruct (go open_error runner mkdtemp_name to_yaml root_path config st)
      as [[r st'] ev] eqn:E. cbn [fst snd] in *. subst r.
    destruct (go_trace _ _ _ _ _ _ _ _ _ _ Hx E)
      as (body & st1 & -> & Ht & _).
    apply body_trace_runs in Ht as [_ Heq]. specialize (Heq eq_refl).
    assert (step_invocation root_path config (rf_config_path st)
              Step_train_random_forest ∈ run_invocations body) as Hin.
    { rewrite Heq. apply list_elem_of_fmap. eexists. split; [done|].
      apply list_elem_of_filter. split; [done|]. unfold fixed_order.
      set_solver. }
    apply elem_of_run_invocations in Hin as (seen & out & Hin).
    exists (step_invocation root_path config (rf_config_path st)
              Step_train_random_forest), seen, out.
    split; [|done]. rewrite !elem_of_cons, elem_of_app. auto.
Qed.

(** The sample run that selects the training step only. *)
Lemma train_config_serialized_witness :
  let config := sample_config (StepsStr "train_random_forest") in
  let ev := snd (go sample_open_error runner_ok sample_mkdtemp sample_to_yaml "/srv/nyc" config
                   sample_state) in
  let entry := body_entry config "/tmp/tmpk3x9a1" sample_state in
  let seen :=
    set_fs (<["/home/user/project/rf_config.json" :=
                File (sample_to_yaml (pipeline config))]> (fs entry)) entry in
  let inv := step_invocation "/srv/nyc" config
               "/home/user/project/rf_config.json" Step_train_random_forest in
  startswith_sep "/home/user/project/rf_config.json" = true ∧
  (∃ inv' seen' out',
     EvRun inv' seen' out' ∈ ev ∧
     uri inv' = "/srv/nyc/components/train_random_forest") ∧
  (∃ pre post,
     ev = pre ++ EvWrite "/home/user/project/rf_config.json"
                   (sample_to_yaml (pipeline config))
                :: EvRun inv seen None :: post) ∧
  fs seen !! "/home/user/project/rf_config.json"
    = Some (File (sample_to_yaml (pipeline config))) ∧
  parameters inv !! "rf_config"
    = Some (VStr "/home/user/project/rf_config.json") ∧
  parameters inv !! "output_artifact" = Some (VStr "random_forest_export").
Proof.
  cbv zeta.
  destruct (train_config_serialized sample_open_error runner_ok sample_mkdtemp sample_to_yaml
              "/srv/nyc" (sample_config (StepsStr "train_random_forest"))
              sample_state) as (H1 & H2 & H3).
  split; [apply H3; reflexivity|]. split.
  - apply H2.
    + apply (bool_decide_unpack _). vm_compute. exact I.
    + vm_compute. reflexivity.
  - apply H1.
    + apply (bool_decide_unpack _). vm_compute. exact I.
    + vm_compute. reflexivity.
Defined.

(** ** The scratch directory *)

Lemma elem_of_file_writes p c ev : (p, c) ∈ file_writes ev ↔ EvWrite p c ∈ ev.
Proof.
  unfold file_writes. rewrite list_elem_of_omap. split.
  - intros (e & Hin & He). destruct e; try discriminate. by injection He as -> ->.
  - intros Hin. by exists (EvWrite p c).
Qed.

(** C7, as the code has it. The only file the driver writes is the
    training configuration, at [rf_config.json] resolved against the current
    working directory; the name of the scratch directory plays no part in it,
    nor in anything else the six blocks do. *)
Theorem config_file_written_in_cwd open_error runner mkdtemp_name to_yaml root_path
    config st :
  Forall (λ w, w = (normpath (os_path_join (cwd st) ["rf_config.json"]),
                    to_yaml (pipeline config)))
    (file_writes (snd (go open_error runner mkdtemp_name to_yaml root_path config st))) ∧
  (∀ steps d1 d2,
     go_body open_error runner to_yaml root_path config steps d1
     = go_body open_error runner to_yaml root_path config steps d2).
Proof.
  split; [|done]. apply Forall_forall. intros [p c] Hin.
  apply elem_of_file_writes, go_write_event in Hin as (_ & -> & ->). done.
Qed.

(** C7 as stated fails: in the sample run of the training step the scratch
    directory is [/tmp/tmpk3x9a1] and the configuration file is written to
    [/home/user/project/rf_config.json], which is not inside it. *)
Lemma config_file_outside_scratch_dir :
  let out := go sample_open_error runner_ok sample_mkdtemp sample_to_yaml "/srv/nyc"
               (sample_config (StepsStr "train_random_forest")) sample_state in
  run_uris out.2 = ["/srv/nyc/components/train_random_forest"] ∧
  sample_mkdtemp
    (env_ready (sample_config (StepsStr "train_random_forest")) sample_state)
  = "/tmp/tmpk3x9a1" ∧
  fst <$> file_writes out.2 = ["/home/user/project/rf_config.json"] ∧
  ¬ Forall (λ w, is_under "/tmp/tmpk3x9a1" w.1 = true) (file_writes out.2).
Proof.
  cbv zeta. split; [vm_compute; reflexivity|]. split; [reflexivity|].
  split; [vm_compute; reflexivity|].
  assert (file_writes
            (go sample_open_error runner_ok sample_mkdtemp sample_to_yaml "/srv/nyc"
               (sample_config (StepsStr "train_random_forest")) sample_state).2
          = [("/home/user/project/rf_config.json",
              sample_to_yaml
                (pipeline (sample_config (StepsStr "train_random_forest"))))])
    as -> by (vm_compute; reflexivity).
  intros H. apply (proj1 (Forall_singleton _ _)) in H. vm_compute in H.
  discriminate H.
Qed.

Lemma is_under_refl d : is_under d d = true.
Proof. unfold is_under. by rewrite String.eqb_refl. Qed.

Lemma rmtree_lookup_under d p f : is_under d p = true → rmtree d f !! p = None.
Proof.
  intros Hp. unfold rmtree. apply map_lookup_filter_None. right.
  intros x _. cbn. by rewrite Hp.
Qed.

Lemma rmtree_lookup_outside d p f :
  is_under d p = false → rmtree d f !! p = f !! p.
Proof.
  intros Hp. unfold rmtree. destruct (f !! p) as [x|] eqn:E.
  - by apply map_lookup_filter_Some.
  - apply map_lookup_filter_None. by left.
Qed.

(** C8. In a run that reaches the [with] block (both names could be
    exported), whether the six blocks end normally or with an exception, the
    result of the [with] body is the result of the run, the last thing the
    run does is remove the scratch directory, and afterwards neither the
    directory nor anything below it exists. Every other path of the
    filesystem, the environment and the working directory are as the body
    left them. *)
Theorem scratch_dir_removed open_error runner mkdtemp_name to_yaml root_path
    config st :
  names_exportable config = true →
  let d := mkdtemp_name (env_ready config st) in
  let out := go open_error runner mkdtemp_name to_yaml root_path config st in
  let inner := go_body open_error runner to_yaml root_path config (resolve_steps config) d
                 (body_entry config d st) in
  fst (fst out) = fst (fst inner) ∧
  last (snd out) = Some (EvCleanup d) ∧
  fs (snd (fst out)) !! d = None ∧
  (∀ p, is_under d p = true → fs (snd (fst out)) !! p = None) ∧
  (∀ p, is_under d p = false →
        fs (snd (fst out)) !! p = fs (snd (fst inner)) !! p) ∧
  environ (snd (fst out)) = environ (snd (fst inner)) ∧
  cwd (snd (fst out)) = cwd (snd (fst inner)).
Proof.
  intros Hx. cbv zeta.
  rewrite go_eq, go_body_blocks, run_blocks_eq by done. cbv zeta.
  fold (env_ready config st).
  fold (body_entry config (mkdtemp_name (env_ready config st)) st).
  destruct (blocks_outcome _ _ _ _ _ _ _ _) as [[r st1] body].
  cbn [fst snd set_fs fs environ cwd].
  split; [done|]. split.
  { rewrite !app_comm_cons. apply last_snoc. }
  split; [apply rmtree_lookup_under, is_under_refl|].
  split; [intros p Hp; by apply rmtree_lookup_under|].
  split; [intros p Hp; by apply rmtree_lookup_outside|done].
Qed.

(** A run whose first delegation raises: the scratch directory is gone,
    the project directory is untouched by the removal. *)
Lemma scratch_dir_removed_witness :
  let out := go sample_open_error
               (runner_raising_at "/srv/nyc/components/data_get" sample_error)
               sample_mkdtemp sample_to_yaml "/srv/nyc"
               (sample_config (StepsList ["data_get"; "data_clean"]))
               sample_state in
  fst (fst out) = Raise sample_error ∧
  fs (snd (fst out)) !! "/tmp/tmpk3x9a1" = None ∧
  fs (snd (fst out)) !! "/tmp/tmpk3x9a1/model.pkl" = None ∧
  fs (snd (fst out)) !! "/home/user/project" = Some Dir.
Proof.
  cbv zeta.
  destruct (scratch_dir_removed
              sample_open_error
               (runner_raising_at "/srv/nyc/components/data_get" sample_error)
              sample_mkdtemp sample_to_yaml "/srv/nyc"
              (sample_config (StepsList ["data_get"; "data_clean"]))
              sample_state) as (Hr & _ & Hd & Hin & Hout & _);
    [reflexivity|].
  split; [rewrite Hr; vm_compute; reflexivity|].
  split; [exact Hd|].
  split; [apply Hin; vm_compute; reflexivity|].
  rewrite Hout by (vm_compute; reflexivity). vm_compute. reflexivity.
Defined.

(** ** The process environment *)

(** C9. Whatever the configuration, every delegation of a run sees
    [WANDB_PROJECT] set to [config.main.project_name] and [WANDB_RUN_GROUP]
    set to [config.main.experiment_name]: the two assignments are the first
    two events of such a run. A run assigns to the environment in its first
    two events only, so that no step changes the values; and the state left
    by a run that delegated something, or that could export both names,
    holds both. *)
Theorem environment_set_before_steps open_error runner mkdtemp_name to_yaml
    root_path config st :
  let out := go open_error runner mkdtemp_name to_yaml root_path config st in
  let assignments :=
    [EvSetenv "WANDB_PROJECT" (project_name (main config));
     EvSetenv "WANDB_RUN_GROUP" (experiment_name (main config))] in
  (take 2 (snd out) `prefix_of` assignments ∧
   Forall (λ e, is_setenv e = false) (drop 2 (snd out))) ∧
  (∀ inv seen raised,
     EvRun inv seen raised ∈ snd out →
     environ seen !! "WANDB_PROJECT" = Some (project_name (main config)) ∧
     environ seen !! "WANDB_RUN_GROUP"
       = Some (experiment_name (main config)) ∧
     take 2 (snd out) = assignments ∧
     environ (snd (fst out)) !! "WANDB_PROJECT"
       = Some (project_name (main config)) ∧
     environ (snd (fst out)) !! "WANDB_RUN_GROUP"
       = Some (experiment_name (main config))) ∧
  (names_exportable config = true →
   take 2 (snd out) = assignments ∧
   environ (snd (fst out)) !! "WANDB_PROJECT"
     = Some (project_name (main config)) ∧
   environ (snd (fst out)) !! "WANDB_RUN_GROUP"
     = Some (experiment_name (main config))).
Proof.
  cbv zeta.
  assert (environ (env_ready config st) !! "WANDB_PROJECT"
            = Some (project_name (main config)) ∧
          environ (env_ready config st) !! "WANDB_RUN_GROUP"
            = Some (experiment_name (main config))) as [Hp Hg].
  { unfold env_ready, set_environ. cbn [environ]. by simplify_map_eq. }
  assert (names_exportable config = true →
          take 2 (snd (go open_error runner mkdtemp_name to_yaml root_path
                         config st))
          = [EvSetenv "WANDB_PROJECT" (project_name (main config));
             EvSetenv "WANDB_RUN_GROUP" (experiment_name (main config))] ∧
          Forall (λ e, is_setenv e = false)
            (drop 2 (snd (go open_error runner mkdtemp_name to_yaml root_path
                            config st))) ∧
          environ (snd (fst (go open_error runner mkdtemp_name to_yaml
                               root_path config st))) !! "WANDB_PROJECT"
            = Some (project_name (main config)) ∧
          environ (snd (fst (go open_error runner mkdtemp_name to_yaml
                               root_path config st))) !! "WANDB_RUN_GROUP"
            = Some (experiment_name (main config))) as Hgood.
  { intros Hx.
    destruct (go open_error runner mkdtemp_name to_yaml root_path config st)
      as [[r st'] ev] eqn:E.
    destruct (go_trace _ _ _ _ _ _ _ _ _ _ Hx E)
      as (body & st1 & -> & Ht & _ & -> & He & _).
    cbn [fst snd take drop]. split; [done|]. split.
    - apply Forall_cons. split; [done|].
      apply Forall_app. split; [|by apply Forall_singleton].
      apply body_trace_events in Ht.
      eapply Forall_impl; [exact Ht|]. intros e Hev. by destruct e.
    - unfold set_fs. cbn [environ]. by rewrite He. }
  split; [|split].
  - destruct (names_exportable config) eqn:Hx.
    + destruct (Hgood eq_refl) as (-> & ? & _). done.
    + destruct (go_prologue_raises open_error runner mkdtemp_name to_yaml
                  root_path config st Hx) as (st' & ev & -> & [-> | ->] & _);
        cbn [snd take drop].
      * split; [apply prefix_nil|done].
      * split; [|done]. by eexists [_].
  - intros inv seen raised Hin.
    pose proof (go_run_exportable _ _ _ _ _ _ _ _ _ _ Hin) as Hx.
    destruct (Hgood Hx) as (? & _ & ? & ?).
    apply go_run_event in Hin as (s & _ & _ & -> & _). done.
  - intros Hx. by destruct (Hgood Hx) as (? & _ & ? & ?).
Qed.

(** Both values as seen by the delegation of [data_get] in a sample run. *)
Lemma environment_set_before_steps_witness :
  let config := sample_config (StepsStr "data_get,data_clean") in
  let seen := body_entry config "/tmp/tmpk3x9a1" sample_state in
  environ seen !! "WANDB_PROJECT" = Some "nyc_airbnb" ∧
  environ seen !! "WANDB_RUN_GROUP" = Some "development".
Proof.
  cbv zeta.
  destruct (proj1 (proj2 (environment_set_before_steps sample_open_error
                            runner_ok sample_mkdtemp sample_to_yaml "/srv/nyc"
                            (sample_config (StepsStr "data_get,data_clean"))
                            sample_state))
              (step_invocation "/srv/nyc"
                 (sample_config (StepsStr "data_get,data_clean")) ""
                 Step_data_get)
              (body_entry (sample_config (StepsStr "data_get,data_clean"))
                 "/tmp/tmpk3x9a1" sample_state)
              None) as (H1 & H2 & _).
  - apply (bool_decide_unpack _). vm_compute. exact I.
  - split; [exact H1|exact H2].
Defined.

(** * Further properties of the driver *)

(** ** What a run logs *)





(** ** No step is delegated twice *)

Lemma fixed_order_NoDup : NoDup fixed_order.
Proof. apply (bool_decide_unpack _). vm_compute. exact I. Qed.

(** X2. A run delegates each step at most once: the targets of its delegations
    are pairwise distinct, and there are at most six of them. *)
Theorem each_step_delegated_at_most_once open_error runner mkdtemp_name to_yaml root_path
    config st :
  NoDup (run_uris (snd (go open_error runner mkdtemp_name to_yaml root_path config st))) ∧
  (length (run_uris (snd (go open_error runner mkdtemp_name to_yaml root_path config st)))
   ≤ 6)%nat.
Proof.
  destruct (names_exportable config) eqn:Hx.
  2:{ destruct (go_prologue_raises open_error runner mkdtemp_name to_yaml
                  root_path config st Hx) as (st' & ev & -> & Hev & _).
      cbn [snd]. assert (run_uris ev = []) as ->
        by (by destruct Hev as [-> | ->]).
      split; [apply NoDup_nil_2|cbn; lia]. }
  destruct (go _ _ _ _ _ config st) as [[r st'] ev] eqn:E. cbn [snd].
  destruct (go_trace _ _ _ _ _ _ _ _ _ _ Hx E) as (body & st1 & -> & Ht & _).
  apply body_trace_runs in Ht as [Hpre _].
  unfold run_uris. rewrite run_invocations_go.
  apply (prefix_fmap uri) in Hpre. rewrite <- list_fmap_compose in Hpre.
  destruct Hpre as [k Hk].
  assert (NoDup ((uri ∘ step_invocation root_path config
                    (rf_config_path
                       (body_entry config (mkdtemp_name (env_ready config st))
                          st)))
                 <$> filter (λ s, step_name s ∈ resolve_steps config)
                       fixed_order)) as Hnd.
  { apply NoDup_fmap_2_strong.
    - intros s1 s2 _ _ Heq. by apply (component_dir_inj root_path).
    - apply NoDup_filter, fixed_order_NoDup. }
  split.
  - rewrite Hk in Hnd. by apply NoDup_app in Hnd as [? _].
  - apply (f_equal length) in Hk. rewrite length_app, length_fmap in Hk.
    pose proof (length_filter (λ s, step_name s ∈ resolve_steps config)
                  fixed_order) as Hf.
    change (length fixed_order) with 6%nat in Hf. lia.
Qed.

(** ** The selection in normal form *)

(** X3. Only the six known names count in a selection, and each counts once: a
    run is the run of the known names the selection holds, listed once each
    in the fixed order. Unknown names, repetitions and the order are
    immaterial. *)
Theorem selection_normal_form open_error runner mkdtemp_name to_yaml root_path config st :
  go open_error runner mkdtemp_name to_yaml root_path config st
  = go open_error runner mkdtemp_name to_yaml root_path
      (with_execute_steps config
         (StepsList
            (step_name <$> filter (λ s, step_name s ∈ resolve_steps config)
                             fixed_order))) st.
Proof.
  transitivity (go open_error runner mkdtemp_name to_yaml root_path
                  (with_execute_steps config (execute_steps (main config))) st);
    [by rewrite with_execute_steps_id|].
  apply go_selection_ext. intros s.
  cbn [resolve_steps with_execute_steps main execute_steps].
  fold (resolve_steps config). rewrite list_elem_of_fmap. split.
  - intros Hs. exists s. split; [done|]. apply list_elem_of_filter.
    split; [done|]. destruct s; unfold fixed_order; set_solver.
  - intros (s' & Heq & Hin). apply step_name_inj in Heq as <-.
    by apply list_elem_of_filter in Hin as [? _].
Qed.

(** ** The environment after a run *)

(** X4. A run changes the process environment by its two assignments only:
    whatever the configuration and however the run ends, every variable other
    than [WANDB_PROJECT] and [WANDB_RUN_GROUP] keeps its value and the
    working directory is the initial one; and when both names can be
    exported, the environment left is the initial one with the two variables
    set. *)
Theorem environment_frame open_error runner mkdtemp_name to_yaml root_path
    config st :
  let st' := snd (fst (go open_error runner mkdtemp_name to_yaml root_path
                         config st)) in
  (names_exportable config = true →
   environ st'
   = <["WANDB_RUN_GROUP" := experiment_name (main config)]>
       (<["WANDB_PROJECT" := project_name (main config)]> (environ st))) ∧
  (∀ k, k ≠ "WANDB_PROJECT" → k ≠ "WANDB_RUN_GROUP" →
        environ st' !! k = environ st !! k) ∧
  cwd st' = cwd st.
Proof.
  cbv zeta. destruct (names_exportable config) eqn:Hx.
  2:{ destruct (go_prologue_raises open_error runner mkdtemp_name to_yaml
                  root_path config st Hx)
        as (st' & ev & -> & _ & _ & Hc & Hk).
      cbn [fst snd]. split; [discriminate|]. split; [|done].
      intros k H1 _. by apply Hk. }
  destruct (go _ _ _ _ _ config st) as [[r st'] ev] eqn:E. cbn [fst snd].
  destruct (go_trace _ _ _ _ _ _ _ _ _ _ Hx E)
    as (body & st1 & _ & _ & _ & -> & He & Hc).
  unfold set_fs. cbn [environ cwd]. rewrite He.
  unfold env_ready, set_environ. cbn [environ].
  split; [done|]. split; [|done].
  intros k H1 H2. by rewrite !lookup_insert_ne.
Qed.

Lemma environment_frame_witness :
  environ
    (snd (fst (go sample_open_error runner_ok sample_mkdtemp sample_to_yaml "/srv/nyc"
                 (sample_config (StepsStr "data_get")) sample_state)))
    !! "HOME" = environ sample_state !! "HOME".
Proof.
  apply (proj1 (proj2 (environment_frame sample_open_error runner_ok sample_mkdtemp
                         sample_to_yaml "/srv/nyc"
                         (sample_config (StepsStr "data_get")) sample_state))).
  - discriminate.
  - discriminate.
Defined.

(** ** Where and how a step is delegated *)

Lemma string_app_assoc (a b c : string) : (a +:+ b) +:+ c = a +:+ (b +:+ c).
Proof.
  induction a as [|x a IH]; [done|].
  change ((String x a +:+ b) +:+ c) with (String x ((a +:+ b) +:+ c)).
  change (String x a +:+ (b +:+ c)) with (String x (a +:+ (b +:+ c))).
  by rewrite IH.
Qed.

Lemma endswith_sep_app a x b :
  endswith_sep (a +:+ String x b) = endswith_sep (String x b).
Proof.
  induction a as [|y a IH]; [done|].
  change (String y a +:+ String x b) with (String y (a +:+ String x b)).
  cbn [endswith_sep]. rewrite IH.
  destruct a as [|z a]; [done|].
  by change (String z a +:+ String x b) with (String z (a +:+ String x b)).
Qed.

(** [os.path.join(root_path, "components", name)] spelled out. *)
Lemma component_dir_shape root_path s :
  component_dir root_path s
  = if String.eqb root_path "" then "components/" +:+ step_name s
    else if endswith_sep root_path
         then root_path +:+ "components/" +:+ step_name s
         else root_path +:+ "/components/" +:+ step_name s.
Proof.
  unfold component_dir, os_path_join. cbn [fold_left].
  unfold join_component at 2.
  change (startswith_sep "components") with false. cbv iota.
  destruct root_path as [|a r].
  { cbn [String.eqb orb]. by destruct s. }
  change (String.eqb (String a r) "") with false. cbn [orb].
  unfold join_component. rewrite step_name_not_abs.
  destruct (endswith_sep (String a r)).
  - rewrite endswith_sep_app.
    change (String.eqb (String a r +:+ "components") "") with false.
    change (endswith_sep "components") with false. cbn [orb].
    by rewrite string_app_assoc.
  - change ("/" +:+ "components") with "/components".
    rewrite endswith_sep_app.
    change (String.eqb (String a r +:+ "/components") "") with false.
    change (endswith_sep "/components") with false. cbn [orb].
    by rewrite string_app_assoc.
Qed.

(** X5. Every delegation of a run is that of a selected step, to the entry
    point [main] of the project [components/<step>] under the project root:
    no slash is doubled when the root ends with one, and the target is
    relative when the root is empty. *)
Theorem delegation_target open_error runner mkdtemp_name to_yaml root_path config st
    inv seen out :
  EvRun inv seen out ∈ snd (go open_error runner mkdtemp_name to_yaml root_path config st) →
  entry_point inv = "main" ∧
  ∃ s, step_name s ∈ resolve_steps config ∧
       uri inv
       = if String.eqb root_path "" then "components/" +:+ step_name s
         else if endswith_sep root_path
              then root_path +:+ "components/" +:+ step_name s
              else root_path +:+ "/components/" +:+ step_name s.
Proof.
  intros Hin. apply go_run_event in Hin as (s & Hs & -> & _).
  split; [done|]. exists s. split; [done|]. apply component_dir_shape.
Qed.

Lemma delegation_target_witness :
  let config := sample_config (StepsStr "data_get") in
  let inv := step_invocation "/srv/nyc/" config "" Step_data_get in
  entry_point inv = "main" ∧
  ∃ s, step_name s ∈ resolve_steps config ∧
       uri inv = "/srv/nyc/components/" +:+ step_name s.
Proof.
  cbv zeta.
  apply (delegation_target sample_open_error runner_ok sample_mkdtemp sample_to_yaml "/srv/nyc/"
           (sample_config (StepsStr "data_get")) sample_state
           (step_invocation "/srv/nyc/" (sample_config (StepsStr "data_get"))
              "" Step_data_get)
           (body_entry (sample_config (StepsStr "data_get")) "/tmp/tmpk3x9a1"
              sample_state)
           None).
  apply (bool_decide_unpack _). vm_compute. exact I.
Defined.

(** ** What the steps are told *)

(** The delegation found at the target of step [s] carries that step's
    parameters. *)
Lemma go_run_event_at open_error runner mkdtemp_name to_yaml root_path config st
    inv seen out s :
  EvRun inv seen out ∈ snd (go open_error runner mkdtemp_name to_yaml root_path config st) →
  uri inv = component_dir root_path s →
  inv = step_invocation root_path config (rf_config_path st) s.
Proof.
  intros Hin Huri. apply go_run_event in Hin as (s' & _ & -> & _).
  by apply component_dir_inj in Huri as ->.
Qed.

(** X6. The [input_file] given to [data_get] is [data.sample] itself when that
    path is absolute, and [data.sample] resolved against the project root
    otherwise. *)
Theorem input_file_resolved open_error runner mkdtemp_name to_yaml root_path config st
    inv seen out :
  EvRun inv seen out ∈ snd (go open_error runner mkdtemp_name to_yaml root_path config st) →
  uri inv = component_dir root_path Step_data_get →
  parameters inv !! "input_file"
  = Some (VStr (if startswith_sep (sample (data config))
                then sample (data config)
                else if (String.eqb root_path "" || endswith_sep root_path)%bool
                     then root_path +:+ sample (data config)
                     else root_path +:+ "/" +:+ sample (data config))).
Proof.
  intros Hin Huri.
  rewrite (go_run_event_at _ _ _ _ _ _ _ _ _ _ _ Hin Huri).
  unfold step_invocation, parameters, step_parameters.
  by rewrite lookup_insert_eq.
Qed.

Lemma input_file_resolved_witness :
  let config := sample_config (StepsStr "data_get") in
  parameters (step_invocation "/srv/nyc" config "" Step_data_get)
    !! "input_file" = Some (VStr "/srv/nyc/sample1.csv").
Proof.
  cbv zeta.
  apply (input_file_resolved sample_open_error runner_ok sample_mkdtemp sample_to_yaml "/srv/nyc"
           (sample_config (StepsStr "data_get")) sample_state
           (step_invocation "/srv/nyc" (sample_config (StepsStr "data_get"))
              "" Step_data_get)
           (body_entry (sample_config (StepsStr "data_get")) "/tmp/tmpk3x9a1"
              sample_state)
           None).
  - apply (bool_decide_unpack _). vm_compute. exact I.
  - reflexivity.
Defined.

(** X7. Cleaning and checking are given the same price bounds, those of
    [config.etl]. *)
Theorem price_bounds_shared open_error runner mkdtemp_name to_yaml root_path config st
    inv1 seen1 out1 inv2 seen2 out2 :
  EvRun inv1 seen1 out1
    ∈ snd (go open_error runner mkdtemp_name to_yaml root_path config st) →
  EvRun inv2 seen2 out2
    ∈ snd (go open_error runner mkdtemp_name to_yaml root_path config st) →
  uri inv1 = component_dir root_path Step_data_clean →
  uri inv2 = component_dir root_path Step_data_check →
  parameters inv1 !! "min_price" = Some (min_price (etl config)) ∧
  parameters inv2 !! "min_price" = Some (min_price (etl config)) ∧
  parameters inv1 !! "max_price" = Some (max_price (etl config)) ∧
  parameters inv2 !! "max_price" = Some (max_price (etl config)).
Proof.
  intros Hin1 Hin2 Huri1 Huri2.
  rewrite (go_run_event_at _ _ _ _ _ _ _ _ _ _ _ Hin1 Huri1).
  rewrite (go_run_event_at _ _ _ _ _ _ _ _ _ _ _ Hin2 Huri2).
  unfold step_invocation, parameters, step_parameters.
  by simplify_map_eq.
Qed.


Lemma price_bounds_shared_witness :
  let config := sample_config (StepsStr "data_clean,data_check") in
  let inv1 := step_invocation "/srv/nyc" config "" Step_data_clean in
  let inv2 := step_invocation "/srv/nyc" config "" Step_data_check in
  parameters inv1 !! "min_price" = Some (VInt 10) ∧
  parameters inv2 !! "min_price" = Some (VInt 10) ∧
  parameters inv1 !! "max_price" = Some (VInt 500) ∧
  parameters inv2 !! "max_price" = Some (VInt 500).
Proof.
  cbv zeta.
  apply (price_bounds_shared sample_open_error runner_quiet sample_mkdtemp sample_to_yaml
           "/srv/nyc" (sample_config (StepsStr "data_clean,data_check"))
           sample_state
           (step_invocation "/srv/nyc"
              (sample_config (StepsStr "data_clean,data_check")) ""
              Step_data_clean)
           (body_entry (sample_config (StepsStr "data_clean,data_check"))
              "/tmp/tmpk3x9a1" sample_state)
           None
           (step_invocation "/srv/nyc"
              (sample_config (StepsStr "data_clean,data_check")) ""
              Step_data_check)
           (body_entry (sample_config (StepsStr "data_clean,data_check"))
              "/tmp/tmpk3x9a1" sample_state)
           None).
  - apply (bool_decide_unpack _). vm_compute. exact I.
  - apply (bool_decide_unpack _). vm_compute. exact I.
  - reflexivity.
  - reflexivity.
Defined.

(** X8. Splitting and training are given the same [random_state] and the same
    [stratify] column. *)
Theorem split_settings_shared open_error runner mkdtemp_name to_yaml root_path config st
    inv1 seen1 out1 inv2 seen2 out2 :
  EvRun inv1 seen1 out1
    ∈ snd (go open_error runner mkdtemp_name to_yaml root_path config st) →
  EvRun inv2 seen2 out2
    ∈ snd (go open_error runner mkdtemp_name to_yaml root_path config st) →
  uri inv1 = component_dir root_path Step_data_split →
  uri inv2 = component_dir root_path Step_train_random_forest →
  parameters inv1 !! "random_state" = parameters inv2 !! "random_state" ∧
  parameters inv1 !! "stratify" = parameters inv2 !! "stratify" ∧
  parameters inv1 !! "random_state" = Some (random_state (main config)) ∧
  parameters inv1 !! "stratify" = Some (stratify (data config)) ∧
  parameters inv1 !! "test_size" = Some (test_size (data config)) ∧
  parameters inv2 !! "val_size" = Some (val_size (data config)).
Proof.
  intros Hin1 Hin2 Huri1 Huri2.
  rewrite (go_run_event_at _ _ _ _ _ _ _ _ _ _ _ Hin1 Huri1).
  rewrite (go_run_event_at _ _ _ _ _ _ _ _ _ _ _ Hin2 Huri2).
  unfold step_invocation, parameters, step_parameters.
  by simplify_map_eq.
Qed.


Lemma split_settings_shared_witness :
  let config := sample_config (StepsStr "data_split,train_random_forest") in
  let inv1 := step_invocation "/srv/nyc" config "" Step_data_split in
  let inv2 := step_invocation "/srv/nyc" config
                "/home/user/project/rf_config.json" Step_train_random_forest in
  parameters inv1 !! "random_state" = parameters inv2 !! "random_state" ∧
  parameters inv1 !! "stratify" = parameters inv2 !! "stratify" ∧
  parameters inv1 !! "random_state" = Some (VInt 42) ∧
  parameters inv1 !! "stratify" = Some (VStr "neighbourhood_group") ∧
  parameters inv1 !! "test_size" = Some (VFloat "0.2") ∧
  parameters inv2 !! "val_size" = Some (VFloat "0.2").
Proof.
  cbv zeta.
  apply (split_settings_shared sample_open_error runner_quiet sample_mkdtemp sample_to_yaml
           "/srv/nyc" (sample_config (StepsStr "data_split,train_random_forest")) sample_state
           (step_invocation "/srv/nyc" (sample_config (StepsStr "data_split,train_random_forest")) "" Step_data_split)
           (body_entry (sample_config (StepsStr "data_split,train_random_forest")) "/tmp/tmpk3x9a1" sample_state)
           None
           (step_invocation "/srv/nyc" (sample_config (StepsStr "data_split,train_random_forest"))
              "/home/user/project/rf_config.json" Step_train_random_forest)
           (set_fs (<["/home/user/project/rf_config.json" :=
                       File (sample_to_yaml (pipeline (sample_config (StepsStr "data_split,train_random_forest"))))]>
                     (fs (body_entry (sample_config (StepsStr "data_split,train_random_forest")) "/tmp/tmpk3x9a1" sample_state)))
              (body_entry (sample_config (StepsStr "data_split,train_random_forest")) "/tmp/tmpk3x9a1" sample_state))
           None).
  - apply (bool_decide_unpack _). vm_compute. exact I.
  - apply (bool_decide_unpack _). vm_compute. exact I.
  - reflexivity.
  - reflexivity.
Defined.

(** X9. The model [test_model] is told to test is the artifact
    [train_random_forest] is told to export: its reference is
    [nyc_airbnb/<output_artifact>:prod]. *)
Theorem tested_model_is_trained_model open_error runner mkdtemp_name to_yaml root_path
    config st inv1 seen1 out1 inv2 seen2 out2 :
  EvRun inv1 seen1 out1
    ∈ snd (go open_error runner mkdtemp_name to_yaml root_path config st) →
  EvRun inv2 seen2 out2
    ∈ snd (go open_error runner mkdtemp_name to_yaml root_path config st) →
  uri inv1 = component_dir root_path Step_train_random_forest →
  uri inv2 = component_dir root_path Step_test_model →
  ∃ artifact,
    parameters inv1 !! "output_artifact" = Some (VStr artifact) ∧
    parameters inv2 !! "mlflow_model"
    = Some (VStr ("nyc_airbnb/" +:+ artifact +:+ ":prod")).
Proof.
  intros Hin1 Hin2 Huri1 Huri2.
  rewrite (go_run_event_at _ _ _ _ _ _ _ _ _ _ _ Hin1 Huri1).
  rewrite (go_run_event_at _ _ _ _ _ _ _ _ _ _ _ Hin2 Huri2).
  exists (export_artifact (pipeline config)).
  unfold step_invocation, parameters, step_parameters.
  by simplify_map_eq.
Qed.


Lemma tested_model_is_trained_model_witness :
  let config := sample_config (StepsStr "train_random_forest,test_model") in
  let inv1 := step_invocation "/srv/nyc" config
                "/home/user/project/rf_config.json" Step_train_random_forest in
  let inv2 := step_invocation "/srv/nyc" config "" Step_test_model in
  ∃ artifact,
    parameters inv1 !! "output_artifact" = Some (VStr artifact) ∧
    parameters inv2 !! "mlflow_model"
    = Some (VStr ("nyc_airbnb/" +:+ artifact +:+ ":prod")).
Proof.
  cbv zeta.
  apply (tested_model_is_trained_model sample_open_error runner_quiet sample_mkdtemp
           sample_to_yaml "/srv/nyc" (sample_config (StepsStr "train_random_forest,test_model")) sample_state
           (step_invocation "/srv/nyc" (sample_config (StepsStr "train_random_forest,test_model"))
              "/home/user/project/rf_config.json" Step_train_random_forest)
           (set_fs (<["/home/user/project/rf_config.json" :=
                       File (sample_to_yaml (pipeline (sample_config (StepsStr "train_random_forest,test_model"))))]>
                     (fs (body_entry (sample_config (StepsStr "train_random_forest,test_model")) "/tmp/tmpk3x9a1" sample_state)))
              (body_entry (sample_config (StepsStr "train_random_forest,test_model")) "/tmp/tmpk3x9a1" sample_state))
           None
           (step_invocation "/srv/nyc" (sample_config (StepsStr "train_random_forest,test_model")) "" Step_test_model)
           (set_fs (<["/home/user/project/rf_config.json" :=
                       File (sample_to_yaml (pipeline (sample_config (StepsStr "train_random_forest,test_model"))))]>
                     (fs (body_entry (sample_config (StepsStr "train_random_forest,test_model")) "/tmp/tmpk3x9a1" sample_state)))
              (body_entry (sample_config (StepsStr "train_random_forest,test_model")) "/tmp/tmpk3x9a1" sample_state))
           None).
  - apply (bool_decide_unpack _). vm_compute. exact I.
  - apply (bool_decide_unpack _). vm_compute. exact I.
  - reflexivity.
  - reflexivity.
Defined.

(** ** A run that selects nothing *)



(** ** When the configuration file cannot be written *)

(** X11. When [train_random_forest] is the first selected step and [open]
    of [rf_config.json] fails (the [OSError] reading [text]), the failure
    happens inside the [try]: nothing is written or delegated (not even a
    selected [test_model]), the handler logs [MLflow run failed: <text>],
    and the run ends with that error after removing the scratch
    directory. *)
Theorem config_file_cannot_be_opened open_error runner mkdtemp_name to_yaml
    root_path config st text :
  names_exportable config = true →
  Forall (λ s, step_name s ∉ resolve_steps config)
    [Step_data_get; Step_data_clean; Step_data_check; Step_data_split] →
  step_name Step_train_random_forest ∈ resolve_steps config →
  open_error (rf_config_path st)
    (body_entry config (mkdtemp_name (env_ready config st)) st) = Some text →
  let d := mkdtemp_name (env_ready config st) in
  let e := {| exn_is_Exception := true; exn_str := text |} in
  fst (fst (go open_error runner mkdtemp_name to_yaml root_path config st))
  = Raise e ∧
  snd (go open_error runner mkdtemp_name to_yaml root_path config st)
  = [EvSetenv "WANDB_PROJECT" (project_name (main config));
     EvSetenv "WANDB_RUN_GROUP" (experiment_name (main config));
     EvMkdtemp d;
     EvLogError ("MLflow run failed: " +:+ text);
     EvCleanup d].
Proof.
  intros Hx Hskip Htrain Hopen. cbv zeta.
  rewrite !Forall_cons in Hskip. destruct Hskip as (H1 & H2 & H3 & H4 & _).
  rewrite go_eq by done. cbv zeta. fold (env_ready config st).
  fold (body_entry config (mkdtemp_name (env_ready config st)) st).
  unfold fixed_order. cbn [blocks_outcome]. unfold block_outcome.
  rewrite !bool_decide_eq_false_2 by done.
  rewrite (bool_decide_eq_true_2 _ Htrain).
  cbn [prepare]. unfold write_file.
  change (rf_config_path
            (body_entry config (mkdtemp_name (env_ready config st)) st))
    with (rf_config_path st).
  by rewrite Hopen.
Qed.

Lemma config_file_cannot_be_opened_witness :
  let config := sample_config (StepsStr "train_random_forest,test_model") in
  let st := {| environ := ∅;
               fs := {[ "/home/user/project/rf_config.json" := Dir ]};
               cwd := "/home/user/project" |} in
  let text :=
    "[Errno 21] Is a directory: '/home/user/project/rf_config.json'" in
  fst (fst (go sample_open_error runner_ok sample_mkdtemp sample_to_yaml
              "/srv/nyc" config st))
  = Raise {| exn_is_Exception := true; exn_str := text |} ∧
  snd (go sample_open_error runner_ok sample_mkdtemp sample_to_yaml "/srv/nyc"
         config st)
  = [EvSetenv "WANDB_PROJECT" "nyc_airbnb";
     EvSetenv "WANDB_RUN_GROUP" "development";
     EvMkdtemp "/tmp/tmpk3x9a1";
     EvLogError ("MLflow run failed: " +:+ text);
     EvCleanup "/tmp/tmpk3x9a1"].
Proof.
  cbv zeta.
  apply (config_file_cannot_be_opened sample_open_error runner_ok
           sample_mkdtemp sample_to_yaml "/srv/nyc"
           (sample_config (StepsStr "train_random_forest,test_model"))
           {| environ := ∅;
              fs := {[ "/home/user/project/rf_config.json" := Dir ]};
              cwd := "/home/user/project" |}).
  - reflexivity.
  - apply (bool_decide_unpack _). vm_compute. exact I.
  - apply (bool_decide_unpack _). vm_compute. exact I.
  - vm_compute. reflexivity.
Defined.

(** ** The selection string and its fragments *)

Lemma concat_split sep s :
  String.concat (String sep EmptyString) (split sep s) = s.
Proof.
  induction s as [|c s IH]; [done|]. cbn [split].
  destruct (Ascii.eqb_spec c sep) as [->|Hc].
  - destruct (split sep s) as [|h t] eqn:E; [by apply split_nonempty in E|].
    change (String.concat (String sep "") ("" :: h :: t))
      with (String sep (String.concat (String sep "") (h :: t))).
    by rewrite IH.
  - destruct (split sep s) as [|h t] eqn:E; [by apply split_nonempty in E|].
    rewrite <- IH. by destruct t.
Qed.

Lemma split_fragments_no_sep sep s :
  Forall (λ n, has_char sep n = false) (split sep s).
Proof.
  induction s as [|c s IH]; [by apply Forall_singleton|]. cbn [split].
  destruct (Ascii.eqb c sep) eqn:Hc; [by apply Forall_cons|].
  destruct (split sep s) as [|h t]; [apply Forall_singleton; cbn; by rewrite Hc|].
  apply Forall_cons in IH as [Hh Ht]. apply Forall_cons. split; [|done].
  cbn [has_char]. by rewrite Hc, Hh.
Qed.

(** X12. A selection given as a string resolves to at least one name; no
    resolved name holds a comma; and joining the resolved names with commas
    gives the string back, so that resolving loses nothing of it. *)
Theorem resolved_names_rebuild_string config str :
  let names := resolve_steps (with_execute_steps config (StepsStr str)) in
  names ≠ [] ∧
  Forall (λ n, has_char "," n = false) names ∧
  String.concat "," names = str.
Proof.
  cbv zeta. cbn [resolve_steps with_execute_steps main execute_steps].
  split; [apply split_nonempty|].
  split; [apply split_fragments_no_sep|apply concat_split].
Qed.

(** ** The configuration file after the run *)

Section FileLeftBehind.

Variable open_error : string → State → option string.
Variable runner : Invocation → State → option PyExn * gmap string Node.
Variable to_yaml : PipelineCfg → string.
Variable root_path : string.
Variable config : DictConfig.
Variable steps : list string.
Variable c : string.

Local Abbreviation p := (normpath (os_path_join c ["rf_config.json"])).
Local Abbreviation y := (to_yaml (pipeline config)).

Hypothesis runner_keeps : ∀ inv st, (runner inv st).2 !! p = fs st !! p.

Lemma blocks_outcome_keeps_file l st st1 body :
  cwd st = c →
  blocks_outcome open_error runner to_yaml root_path config steps l st
    = (Ok tt, st1, body) →
  fs st !! p = Some (File y)
  ∨ (Step_train_random_forest ∈ l ∧
     step_name Step_train_random_forest ∈ steps) →
  fs st1 !! p = Some (File y).
Proof.
  revert st body. induction l as [|s rest IH]; intros st body Hc.
  { intros [= <- <-] [?|[Hin _]]; [done|by apply elem_of_nil in Hin]. }
  cbn [blocks_outcome]. unfold block_outcome.
  destruct (bool_decide_reflect (step_name s ∈ steps)) as [Hs|Hs].
  2:{ destruct (blocks_outcome _ _ _ _ _ _ _ _) as [[r2 st2] ev2] eqn:E.
      intros [= -> <- <-] Hor. apply (IH st ev2 Hc E).
      destruct Hor as [?|[Hin Hsel]]; [by left|right].
      apply elem_of_cons in Hin as [<-|?]; done. }
  destruct (decide (s = Step_train_random_forest)) as [->|Hne].
  - cbn [prepare]. unfold write_file, rf_config_path. rewrite Hc.
    destruct (open_error p st) as [text|]; [discriminate|].
    pose proof (runner_keeps
                  (step_invocation root_path config p Step_train_random_forest)
                  (set_fs (<[p:=File y]> (fs st)) st)) as Hk.
    destruct (runner _ _) as [[e|] f]; [discriminate|].
    destruct (blocks_outcome _ _ _ _ _ _ _ _) as [[r2 st2] ev2] eqn:E.
    intros [= -> <- <-] _. eapply IH; [|exact E|]; [exact Hc|]. left.
    cbn [snd fs set_fs] in *. rewrite Hk. apply lookup_insert_eq.
  - assert (prepare open_error to_yaml config s st = (Ok st, [])) as ->
      by (by destruct s).
    pose proof (runner_keeps
                  (step_invocation root_path config (rf_config_path st) s) st)
      as Hk.
    destruct (runner _ _) as [[e|] f]; [discriminate|].
    destruct (blocks_outcome _ _ _ _ _ _ _ _) as [[r2 st2] ev2] eqn:E.
    intros [= -> <- <-] Hor. eapply IH; [|exact E|]; [exact Hc|].
    cbn [snd fs set_fs] in *. rewrite Hk.
    destruct Hor as [?|[Hin Hsel]]; [by left|right].
    apply elem_of_cons in Hin as [?|?]; done.
Qed.

End FileLeftBehind.

(** X13. The configuration file written for the training step is not cleaned
    up: after a run that selected [train_random_forest] and ended normally,
    the file is still there with the serialized [pipeline] section, provided
    the delegated projects left it alone and it does not lie in the scratch
    directory. *)
Theorem config_file_left_behind open_error runner mkdtemp_name to_yaml root_path
    config st :
  (∀ inv st', (runner inv st').2 !! rf_config_path st
              = fs st' !! rf_config_path st) →
  is_under (mkdtemp_name (env_ready config st)) (rf_config_path st) = false →
  step_name Step_train_random_forest ∈ resolve_steps config →
  fst (fst (go open_error runner mkdtemp_name to_yaml root_path config st)) = Ok tt →
  fs (snd (fst (go open_error runner mkdtemp_name to_yaml root_path config st)))
    !! rf_config_path st
  = Some (File (to_yaml (pipeline config))).
Proof.
  intros Hkeep Hout Hsel Hok.
  pose proof (go_ok_exportable _ _ _ _ _ _ _ Hok) as Hx. revert Hok.
  rewrite go_eq by done. cbv zeta.
  fold (env_ready config st).
  destruct (blocks_outcome _ _ _ _ _ _ _ _) as [[r st1] body] eqn:E.
  cbn [fst snd set_fs fs]. intros ->.
  rewrite rmtree_lookup_outside by done.
  eapply (blocks_outcome_keeps_file open_error runner to_yaml root_path config
            (resolve_steps config) (cwd st) Hkeep); [|exact E|].
  - done.
  - right. split; [|done]. unfold fixed_order. set_solver.
Qed.

Lemma config_file_left_behind_witness :
  let config := sample_config (StepsStr "train_random_forest,test_model") in
  fs (snd (fst (go sample_open_error runner_quiet sample_mkdtemp sample_to_yaml "/srv/nyc" config
                  sample_state)))
    !! "/home/user/project/rf_config.json"
  = Some (File (sample_to_yaml (pipeline config))).
Proof.
  cbv zeta.
  apply (config_file_left_behind sample_open_error runner_quiet sample_mkdtemp sample_to_yaml
           "/srv/nyc"
           (sample_config (StepsStr "train_random_forest,test_model"))
           sample_state).
  - intros inv st'. reflexivity.
  - vm_compute. reflexivity.
  - apply (bool_decide_unpack _). vm_compute. exact I.
  - vm_compute. reflexivity.
Defined.

(** ** What the driver itself leaves untouched *)

Section Frame.

Variable open_error : string → State → option string.
Variable runner : Invocation → State → option PyExn * gmap string Node.
Variable to_yaml : PipelineCfg → string.
Variable root_path : string.
Variable config : DictConfig.
Variable steps : list string.
Variable c : string.
Variable q : string.

Local Abbreviation p := (normpath (os_path_join c ["rf_config.json"])).

Hypothesis runner_keeps : ∀ inv st, (runner inv st).2 !! q = fs st !! q.
Hypothesis q_not_config : q ≠ p.


End Frame.



(** ** What lies below the scratch directory *)

Lemma string_prefix_app a b : String.prefix a (a +:+ b) = true.
Proof.
  induction a as [|x a IH]; [by destruct b|].
  change (String x a +:+ b) with (String x (a +:+ b)). cbn [String.prefix].
  by destruct (ascii_dec x x).
Qed.

Lemma is_under_child d x : is_under d (d +:+ "/" +:+ x) = true.
Proof.
  unfold is_under. rewrite <- string_app_assoc, string_prefix_app.
  apply orb_true_r.
Qed.

Lemma is_under_sibling d a x :
  a ≠ "/"%char → is_under d (d +:+ String a x) = false.
Proof.
  intros Ha. unfold is_under. apply orb_false_intro.
  - apply String.eqb_neq. intros H.
    apply (f_equal String.length) in H. revert H. clear.
    induction d as [|y d IH]; [done|].
    change (String y d +:+ String a x) with (String y (d +:+ String a x)).
    cbn [String.length]. intros H. apply IH. by injection H.
  - induction d as [|y d IH].
    + change ("" +:+ "/") with "/". change ("" +:+ String a x) with (String a x).
      cbn [String.prefix]. by destruct (ascii_dec "/" a) as [<-|].
    + change (String y d +:+ "/") with (String y (d +:+ "/")).
      change (String y d +:+ String a x) with (String y (d +:+ String a x)).
      cbn [String.prefix]. by destruct (ascii_dec y y).
Qed.

(** X15. In a run that reaches the [with] block (both names could be
    exported), whatever the delegated projects put below the scratch
    directory is removed with it: after the run no path [<scratch>/<x>]
    exists. A path whose name only begins with the scratch directory's name,
    such as [<scratch>2], is not below it and is not removed by the
    cleanup. *)
Theorem scratch_dir_scope open_error runner mkdtemp_name to_yaml root_path
    config st :
  names_exportable config = true →
  let d := mkdtemp_name (env_ready config st) in
  let out := go open_error runner mkdtemp_name to_yaml root_path config st in
  let inner := go_body open_error runner to_yaml root_path config (resolve_steps config) d
                 (body_entry config d st) in
  (∀ x, fs (snd (fst out)) !! (d +:+ "/" +:+ x) = None) ∧
  (∀ a x, a ≠ "/"%char →
          fs (snd (fst out)) !! (d +:+ String a x)
          = fs (snd (fst inner)) !! (d +:+ String a x)).
Proof.
  intros Hx. cbv zeta.
  rewrite go_eq, go_body_blocks, run_blocks_eq by done. cbv zeta.
  fold (env_ready config st).
  fold (body_entry config (mkdtemp_name (env_ready config st)) st).
  destruct (blocks_outcome _ _ _ _ _ _ _ _) as [[r st1] body].
  cbn [fst snd set_fs fs]. split.
  - intros x. apply rmtree_lookup_under, is_under_child.
  - intros a x Ha. by apply rmtree_lookup_outside, is_under_sibling.
Qed.

Lemma scratch_dir_scope_witness :
  let out := go sample_open_error runner_ok sample_mkdtemp sample_to_yaml "/tmp/tmpk3x9a12"
               (sample_config (StepsStr "data_get")) sample_state in
  fs (snd (fst out)) !! "/tmp/tmpk3x9a12/components/data_get/mlruns"
  = Some Dir.
Proof.
  cbv zeta. etransitivity.
  - refine (proj2 (scratch_dir_scope sample_open_error runner_ok
                     sample_mkdtemp sample_to_yaml "/tmp/tmpk3x9a12"
                     (sample_config (StepsStr "data_get")) sample_state _)
              "2"%char "/components/data_get/mlruns" _).
    + reflexivity.
    + discriminate.
  - vm_compute. reflexivity.
Defined.

(** ** When a run ends normally *)



(** ** When a name cannot be exported *)

(** X17. When [main.project_name] or [main.experiment_name] holds a NUL byte,
    the assignment to [os.environ] raises [ValueError: embedded null byte]
    before the [with] block and outside every [try]: the run ends with that
    error, nothing is logged, delegated or written, no scratch directory is
    made, and the filesystem and working directory are untouched. When only
    the experiment name is at fault, [WANDB_PROJECT] has been set by then and
    stays set; otherwise the environment is untouched too. *)
Theorem name_with_null_byte_refused open_error runner mkdtemp_name to_yaml
    root_path config st :
  names_exportable config = false →
  go open_error runner mkdtemp_name to_yaml root_path config st
  = if has_char "000" (project_name (main config))
    then (Raise embedded_null_byte, st, [])
    else (Raise embedded_null_byte,
          set_environ "WANDB_PROJECT" (project_name (main config)) st,
          [EvSetenv "WANDB_PROJECT" (project_name (main config))]).
Proof. intros Hx. by apply go_not_exportable. Qed.

Lemma name_with_null_byte_refused_witness :
  let config :=
    {| main := {| project_name := "nyc_airbnb";
                  experiment_name := String "000" "development";
                  execute_steps := StepsStr "data_get";
                  random_state := VInt 42 |};
       data := data (sample_config (StepsList []));
       etl := etl (sample_config (StepsList []));
       data_check := data_check (sample_config (StepsList []));
       pipeline := pipeline (sample_config (StepsList [])) |} in
  go sample_open_error runner_ok sample_mkdtemp sample_to_yaml "/srv/nyc"
    config sample_state
  = (Raise embedded_null_byte,
     set_environ "WANDB_PROJECT" "nyc_airbnb" sample_state,
     [EvSetenv "WANDB_PROJECT" "nyc_airbnb"]).
Proof.
  cbv zeta.
  apply (name_with_null_byte_refused sample_open_error runner_ok sample_mkdtemp
           sample_to_yaml "/srv/nyc"
           {| main := {| project_name := "nyc_airbnb";
                         experiment_name := String "000" "development";
                         execute_steps := StepsStr "data_get";
                         random_state := VInt 42 |};
              data := data (sample_config (StepsList []));
              etl := etl (sample_config (StepsList []));
              data_check := data_check (sample_config (StepsList []));
              pipeline := pipeline (sample_config (StepsList [])) |}
           sample_state).
  reflexivity.
Defined.
